(** * nosyt-whop-automation: a shallow embedding of the upload and pricing pipeline

    The development embeds the parts of
      - [src/whop-api/whop_integration.py]   (WhopIntegration, BatchUploader),
      - [src/automation/auto_launcher.py]    (AutoLauncher),
      - [src/generators/ai_product_generator.py] (the save path of the generator)
    that the specification talks about, and proves or refutes the
    specification's statements about them.

    Conventions of the embedding.
      - Python [int] is [Z]; Python [float] is IEEE binary64, computed with the
        executable specification [SpecFloat] of the Standard Library.
      - Python [str] is [string] (its UTF-8 bytes); [len] counts code points.
      - A [dict] read with [.get] / [[...]] is a record of optional fields (a
        key is absent, or carries a value of the type the data model gives
        it); a [dict] that is built and updated in place is a [gmap].
      - Effects are threaded through an explicit [world]; an exception is a
        result, so [try ... except Exception] is a function on results.
      - What the outside does (the marketplace's replies, the wall clock, the
        content generator) is an oracle stored in the [world]: a function of
        the number of the call. Theorems quantify over all oracles. *)

From Stdlib Require Import ZArith Lia Floats.SpecFloat.
From stdpp Require Import gmap strings list pretty.

Open Scope Z_scope.

(* ===================================================================== *)
(** * Python exceptions and results                                        *)
(* ===================================================================== *)

(** The exception classes that the embedded code can raise. All of them
    derive from [Exception], so every [except Exception] catches them. *)
Inductive exn :=
| KeyError (key : string)
| IndexError
| UnboundLocalError
| AttributeError
| TypeError
| ValueError
| OverflowError
| ZeroDivisionError
| OSError
| JSONDecodeError
| RequestException
| GeneratorError.

Inductive result (A : Type) :=
| Ok (a : A)
| Raise (e : exn).
Arguments Ok {A} a.
Arguments Raise {A} e.

Definition is_ok {A} (r : result A) : bool :=
  match r with Ok _ => true | Raise _ => false end.

(* ===================================================================== *)
(** * Python floats (IEEE binary64)                                        *)
(* ===================================================================== *)

Module PyFloat.

Definition prec : Z := 53.
Definition emax : Z := 1024.

Definition float := spec_float.

(** [float(n)] for an [int]: correctly rounded, [OverflowError] when the
    integer is too large ("int too large to convert to float"). *)
Definition of_int (n : Z) : result float :=
  match binary_normalize prec emax n 0 false with
  | S754_infinity _ => Raise OverflowError
  | x => Ok x
  end.

(** [x * y] on floats; overflow silently gives an infinity. *)
Definition mul (x y : float) : float := SFmul prec emax x y.

(** [n * y] with [n : int] and [y : float]: the integer is converted first. *)
Definition int_mul (n : Z) (y : float) : result float :=
  match of_int n with
  | Ok x => Ok (mul x y)
  | Raise e => Raise e
  end.

(** [a / b] on two [int]s: the correctly rounded quotient of the exact
    integers; [ZeroDivisionError] for [b = 0], [OverflowError] when the
    quotient is too large for a float. *)
Definition int_truediv (a b : Z) : result float :=
  match b with
  | Z0 => Raise ZeroDivisionError
  | _ =>
    let sb := b <? 0 in
    match a with
    | Z0 => Ok (S754_zero sb)
    | _ =>
      let sa := a <? 0 in
      match SFdiv prec emax (S754_finite sa (Z.to_pos (Z.abs a)) 0)
                            (S754_finite sb (Z.to_pos (Z.abs b)) 0) with
      | S754_infinity _ => Raise OverflowError
      | q => Ok q
      end
    end
  end.

(** [x / n] with [x : float] and [n : int]. *)
Definition div_int (x : float) (n : Z) : result float :=
  match n with
  | Z0 => Raise ZeroDivisionError
  | _ =>
    match of_int n with
    | Ok y => Ok (SFdiv prec emax x y)
    | Raise e => Raise e
    end
  end.

(** [x > y]. *)
Definition gt (x y : float) : bool := SFltb y x.

(** [int(x)]: truncation towards zero; infinities and NaN raise. *)
Definition to_int (x : float) : result Z :=
  match x with
  | S754_zero _ => Ok 0
  | S754_infinity _ => Raise OverflowError
  | S754_nan => Raise ValueError
  | S754_finite s m e =>
    let a := match e with
             | Zneg k => Z.shiftr (Zpos m) (Zpos k)
             | _ => Z.shiftl (Zpos m) e
             end in
    Ok (if s then - a else a)
  end.

(** The literals of the source, as the doubles Python parses them to. *)
Definition lit_0_8 : float := S754_finite false 7205759403792794 (-53).
Definition lit_1_2 : float := S754_finite false 5404319552844595 (-52).
Definition lit_0_1 : float := S754_finite false 7205759403792794 (-56).
Definition lit_1_5 : float := S754_finite false 6755399441055744 (-52).

End PyFloat.

(* ===================================================================== *)
(** * Strings                                                              *)
(* ===================================================================== *)

Definition nl : string := String (Ascii.ascii_of_nat 10) EmptyString.
Definition dq : string := String (Ascii.ascii_of_nat 34) EmptyString.

(** [quoted s] is [s] between two double quotes. *)
Definition quoted (s : string) : string := dq +:+ s +:+ dq.

(** [c * n] for a one-character string [c]. *)
Fixpoint str_repeat (c : string) (n : nat) : string :=
  match n with
  | O => EmptyString
  | S n' => c +:+ str_repeat c n'
  end.

(** [len(s)]: the number of code points, that is of bytes that are not
    UTF-8 continuation bytes. *)
Fixpoint py_len (s : string) : nat :=
  match s with
  | EmptyString => O
  | String (Ascii.Ascii _ _ _ _ _ _ b6 b7) s' =>
    if b7 && negb b6 then py_len s' else S (py_len s')
  end.

(** [''.join(l)]. *)
Fixpoint str_join (l : list string) : string :=
  match l with
  | [] => EmptyString
  | s :: l' => s +:+ str_join l'
  end.

(** [str(n)] for a non-negative index. *)
Definition str_of_nat (n : nat) : string := pretty n.

(** Truthiness of a [str]. *)
Definition str_truthy (s : string) : bool :=
  match s with EmptyString => false | _ => true end.

(** [needle in hay], as a proposition. *)
Definition contains (needle hay : string) : Prop :=
  ∃ a b, hay = a +:+ needle +:+ b.

Definition ends_with (suffix s : string) : Prop :=
  ∃ a, s = a +:+ suffix.

(* ===================================================================== *)
(** * Data model                                                           *)
(* ===================================================================== *)

(** A chapter of an ebook document: [{'title': ..., 'content': ...}]. *)
Record chapter := {
  ch_title : option string;
  ch_content : option string
}.

(** An entry of an email pack. *)
Record template := {
  tp_type : option string;
  tp_subject_line : option string;
  tp_content : option string
}.

(** A Product Document as [json.load] returns it: the keys that the code
    reads, each absent or present. The [structure] and [layouts] blobs are
    kept as the text that [json.dump(..., indent=2)] writes for them. *)
Record product_data := {
  pd_type : option string;
  pd_title : option string;
  pd_subtitle : option string;
  pd_description : option string;
  pd_suggested_price : option Z;
  pd_tags : option (list string);
  pd_plr_rights : option bool;
  pd_mrr_rights : option bool;
  pd_word_count : option Z;
  pd_chapters : option (list chapter);
  pd_template_type : option string;
  pd_use_case : option string;
  pd_planner_type : option string;
  pd_period : option string;
  pd_formats : option (list string);
  pd_name : option string;
  pd_structure : option string;
  pd_instructions : option (list string);
  pd_layouts : option string;
  pd_templates : option (list template)
}.

(** Values stored in the [metadata] dict of a marketplace payload and in
    the [data] dict of a log line. *)
Inductive value :=
| VNone
| VBool (b : bool)
| VInt (n : Z)
| VStr (s : string)
| VStrs (l : list string)
| VError (prefix : string) (e : exn).   (* the text [prefix] followed by [str(e)] *)

Definition opt_str (o : option string) : value :=
  match o with Some s => VStr s | None => VNone end.

(** The payload that [create_product] posts. *)
Record whop_product := {
  wp_title : string;
  wp_description : string;
  wp_price : Z;
  wp_type : string;
  wp_visibility : string;
  wp_stock : Z;
  wp_category : string;
  wp_tags : list string;
  wp_metadata : gmap string value
}.

(** A listing summary, as [list_products] returns it. *)
Record listing := {
  l_id : option string;
  l_title : option string;
  l_price : option Z;
  l_auto_generated : option bool   (* metadata.auto_generated *)
}.

(** A JSON object in a reply of the marketplace: the keys the client
    reads, and whether the object has any other key. *)
Record jobject := {
  o_id : option string;
  o_data : option (list listing);
  o_views : option Z;
  o_purchases : option Z;
  o_revenue : option Z;
  o_other : bool
}.

(** A parsed reply body: an object, or some other JSON value, of which
    only the truthiness matters (every [.get] on it raises). *)
Inductive jvalue :=
| JObject (o : jobject)
| JOther (truthy : bool).

(** A key is present. *)
Definition present {A} (o : option A) : bool :=
  match o with Some _ => true | None => false end.

(** Truthiness of a [dict]: it has a key. *)
Definition obj_truthy (o : jobject) : bool :=
  present (o_id o) || present (o_data o) || present (o_views o)
  || present (o_purchases o) || present (o_revenue o) || o_other o.

Definition jvalue_truthy (v : jvalue) : bool :=
  match v with JObject o => obj_truthy o | JOther t => t end.

Record response := {
  status_code : Z;
  text : string;
  body : option jvalue          (* None: response.json() raises *)
}.

Inductive http_result :=
| TransportError
| Reply (r : response).

(** The requests the client sends. *)
Inductive request :=
| PostProduct (p : whop_product)
| PatchPrice (product_id : string) (new_price : Z)
| GetAnalytics (product_id : string)
| GetProducts.

(** One line of the per-day action log. *)
Record log_entry := {
  le_timestamp : string;
  le_action : string;
  le_status : string;
  le_data : gmap string value
}.

(** A reading of [datetime.now()]: its [isoformat()] and its
    [strftime('%Y%m%d')]. *)
Record datetime := {
  dt_iso : string;
  dt_ymd : string
}.

(** A [*.json] file of the products directory: what [open] followed by
    [json.load] gives for it. *)
Inductive stored_file :=
| Unreadable (e : exn)
| Parsed (d : product_data).

(** What a call of one of the generator's [generate_*] methods does: it
    raises, returns [None], or saves a document and returns it. *)
Inductive gen_result :=
| GenRaise (e : exn)
| GenNone
| GenProduct (file_name : string) (d : product_data).

(** Lines printed on the console. *)
Inductive console_line :=
| PrintCreating (title : string)
| PrintCreated (id : option string)
| PrintCreateFailed (status : Z) (txt : string)
| PrintCreateException (e : exn)
| PrintUpdating (product_id : string) (dollars : PyFloat.float)
| PrintUpdated
| PrintUpdateFailed (txt : string)
| PrintUpdateException (e : exn)
| PrintAnalyticsFailed (txt : string)
| PrintAnalyticsException (e : exn)
| PrintListFailed (txt : string)
| PrintListException (e : exn)
| PrintDirNotFound (dir : string)
| PrintFound (n : nat)
| PrintErrorProcessing (file_name : string) (e : exn)
| PrintUploadComplete (success failed : Z)
| PrintFilesCreated (kind : string) (dir : string).

(** Messages of the launcher's logger. *)
Inductive log_msg :=
| MsgStartingCycle
| MsgGeneratedCount (n : Z)
| MsgUploadResults (success failed : Z)
| MsgCycleCompleted
| MsgCycleFailed (e : exn)
| MsgGenerated (product_type : string) (title : string)
| MsgGenerateFailed (product_type : string) (e : exn)
| MsgStartingPriceOptimization
| MsgReducedPrice (title : string)
| MsgIncreasedPrice (title : string)
| MsgPriceOptimizationFailed (e : exn)
| MsgGeneratingReport
| MsgReportSaved (total_sales : Z)
| MsgReportFailed (e : exn).

Inductive log_level := INFO | ERROR.

(** A number of the daily report: the [int] 0 or a float. *)
Inductive number :=
| NInt (n : Z)
| NFloat (x : PyFloat.float).

Record report := {
  rp_date : string;
  rp_total_products : Z;
  rp_total_sales : Z;
  rp_total_revenue : number;
  rp_average_price : number;
  rp_generated_today : Z
}.

(** The launcher's configuration (the stage switches). *)
Record config := {
  auto_generate : bool;
  auto_upload : bool;
  price_optimization : bool
}.

(** An entry of the per-item result list of a batch upload; a failed
    entry has no ['whop_id'] key. *)
Record upload_record := {
  ur_title : option string;
  ur_whop_id : option (option string);
  ur_status : string
}.

(** The aggregate that a batch upload returns. *)
Record upload_results := {
  success : Z;
  failed : Z;
  products : list upload_record
}.

(** A call of one of the generator's methods, with its arguments. *)
Inductive gen_call :=
| GenerateEbook (topic audience : string)
| GenerateNotionTemplate (template_type use_case : string)
| GeneratePlannerTemplate (planner_type period : string)
| GenerateEmailTemplates (industry : string) (template_count : Z).

(* ===================================================================== *)
(** * The world                                                            *)
(* ===================================================================== *)

Record world := {
  (* oracles: what the outside does *)
  http : nat → http_result;   (* the reply to the n-th request *)
  clock : nat → datetime;   (* the n-th reading of the clock *)
  generator : nat → gen_result;   (* what the n-th generate_* call does *)
  (* state *)
  http_count : nat;
  sent : list request;   (* the requests sent so far *)
  clock_count : nat;
  generator_calls : list gen_call;   (* the generate_* calls made so far *)
  console : list console_line;
  api_logs : gmap string (list log_entry);   (* logs/whop_api_<day>.log *)
  files : gmap string string;   (* text files written by the uploader *)
  dirs : gmap string (list (string * stored_file));   (* directories of documents *)
  batch : upload_results;   (* the results dict of the running batch upload *)
  automation_log : list (log_level * log_msg);
  reports : gmap string report;   (* reports/daily_report_<day>.json *)
  slept : Z   (* seconds spent in time.sleep *)
}.

Definition set_http_count (v : nat) (w : world) : world :=
  {| http := http w; clock := clock w; generator := generator w;
     http_count := v; sent := sent w; clock_count := clock_count w;
     generator_calls := generator_calls w; console := console w;
     api_logs := api_logs w; files := files w; dirs := dirs w;
     batch := batch w; automation_log := automation_log w;
     reports := reports w; slept := slept w |}.

Definition set_sent (v : list request) (w : world) : world :=
  {| http := http w; clock := clock w; generator := generator w;
     http_count := http_count w; sent := v;
     clock_count := clock_count w; generator_calls := generator_calls w;
     console := console w; api_logs := api_logs w; files := files w;
     dirs := dirs w; batch := batch w;
     automation_log := automation_log w; reports := reports w;
     slept := slept w |}.

Definition set_clock_count (v : nat) (w : world) : world :=
  {| http := http w; clock := clock w; generator := generator w;
     http_count := http_count w; sent := sent w; clock_count := v;
     generator_calls := generator_calls w; console := console w;
     api_logs := api_logs w; files := files w; dirs := dirs w;
     batch := batch w; automation_log := automation_log w;
     reports := reports w; slept := slept w |}.

Definition set_generator_calls (v : list gen_call) (w : world) : world :=
  {| http := http w; clock := clock w; generator := generator w;
     http_count := http_count w; sent := sent w;
     clock_count := clock_count w; generator_calls := v;
     console := console w; api_logs := api_logs w; files := files w;
     dirs := dirs w; batch := batch w;
     automation_log := automation_log w; reports := reports w;
     slept := slept w |}.

Definition set_console (v : list console_line) (w : world) : world :=
  {| http := http w; clock := clock w; generator := generator w;
     http_count := http_count w; sent := sent w;
     clock_count := clock_count w; generator_calls := generator_calls w;
     console := v; api_logs := api_logs w; files := files w;
     dirs := dirs w; batch := batch w;
     automation_log := automation_log w; reports := reports w;
     slept := slept w |}.

Definition set_api_logs (v : gmap string (list log_entry)) (w : world) : world :=
  {| http := http w; clock := clock w; generator := generator w;
     http_count := http_count w; sent := sent w;
     clock_count := clock_count w; generator_calls := generator_calls w;
     console := console w; api_logs := v; files := files w;
     dirs := dirs w; batch := batch w;
     automation_log := automation_log w; reports := reports w;
     slept := slept w |}.

Definition set_files (v : gmap string string) (w : world) : world :=
  {| http := http w; clock := clock w; generator := generator w;
     http_count := http_count w; sent := sent w;
     clock_count := clock_count w; generator_calls := generator_calls w;
     console := console w; api_logs := api_logs w; files := v;
     dirs := dirs w; batch := batch w;
     automation_log := automation_log w; reports := reports w;
     slept := slept w |}.

Definition set_dirs (v : gmap string (list (string * stored_file))) (w : world) : world :=
  {| http := http w; clock := clock w; generator := generator w;
     http_count := http_count w; sent := sent w;
     clock_count := clock_count w; generator_calls := generator_calls w;
     console := console w; api_logs := api_logs w; files := files w;
     dirs := v; batch := batch w; automation_log := automation_log w;
     reports := reports w; slept := slept w |}.

Definition set_batch (v : upload_results) (w : world) : world :=
  {| http := http w; clock := clock w; generator := generator w;
     http_count := http_count w; sent := sent w;
     clock_count := clock_count w; generator_calls := generator_calls w;
     console := console w; api_logs := api_logs w; files := files w;
     dirs := dirs w; batch := v; automation_log := automation_log w;
     reports := reports w; slept := slept w |}.

Definition set_automation_log (v : list (log_level * log_msg)) (w : world) : world :=
  {| http := http w; clock := clock w; generator := generator w;
     http_count := http_count w; sent := sent w;
     clock_count := clock_count w; generator_calls := generator_calls w;
     console := console w; api_logs := api_logs w; files := files w;
     dirs := dirs w; batch := batch w; automation_log := v;
     reports := reports w; slept := slept w |}.

Definition set_reports (v : gmap string report) (w : world) : world :=
  {| http := http w; clock := clock w; generator := generator w;
     http_count := http_count w; sent := sent w;
     clock_count := clock_count w; generator_calls := generator_calls w;
     console := console w; api_logs := api_logs w; files := files w;
     dirs := dirs w; batch := batch w;
     automation_log := automation_log w; reports := v; slept := slept w |}.

Definition set_slept (v : Z) (w : world) : world :=
  {| http := http w; clock := clock w; generator := generator w;
     http_count := http_count w; sent := sent w;
     clock_count := clock_count w; generator_calls := generator_calls w;
     console := console w; api_logs := api_logs w; files := files w;
     dirs := dirs w; batch := batch w;
     automation_log := automation_log w; reports := reports w;
     slept := v |}.

(** A computation: it returns or raises, and leaves a world behind. *)
Definition M (A : Type) : Type := world → result A * world.

Definition ret {A} (a : A) : M A := λ w, (Ok a, w).

Definition raise {A} (e : exn) : M A := λ w, (Raise e, w).

Definition bind {A B} (c : M A) (k : A → M B) : M B :=
  λ w, match c w with
       | (Ok a, w') => k a w'
       | (Raise e, w') => (Raise e, w')
       end.

(** [try: c except Exception as e: h e]. *)
Definition try_except {A} (c : M A) (h : exn → M A) : M A :=
  λ w, match c w with
       | (Ok a, w') => (Ok a, w')
       | (Raise e, w') => h e w'
       end.

Definition lift {A} (r : result A) : M A := λ w, (r, w).

(** A step that only changes the world. *)
Definition modify (f : world → world) : M unit := λ w, (Ok tt, f w).

(** Reading the world. *)
Definition gets {A} (f : world → A) : M A := λ w, (Ok (f w), w).

Declare Scope py_scope.
Delimit Scope py_scope with py.
Notation "x <- c ;; k" := (bind c (λ x, k))
  (at level 100, c at next level, right associativity) : py_scope.
Notation "c ;; k" := (bind c (λ _, k))
  (at level 100, right associativity) : py_scope.
Open Scope py_scope.

(** [d[key]] on an optional field. *)
Definition getitem {A} (key : string) (o : option A) : M A :=
  match o with
  | Some a => ret a
  | None => raise (KeyError key)
  end.

(** [for x in l: body x]. *)
Fixpoint for_each {A} (l : list A) (body : A → M unit) : M unit :=
  match l with
  | [] => ret tt
  | x :: l' => body x ;; for_each l' body
  end.

(** [for i, x in enumerate(l, start): body i x]. *)
Fixpoint for_each_enumerate {A} (start : nat) (l : list A)
    (body : nat → A → M unit) : M unit :=
  match l with
  | [] => ret tt
  | x :: l' => body start x ;; for_each_enumerate (S start) l' body
  end.

(** [for i, x in enumerate(l, start): acc = body i x acc], for a body
    that only computes (and may raise). *)
Fixpoint for_enumerate {A T} (start : nat) (l : list A)
    (body : nat → A → T → result T) (acc : T) : result T :=
  match l with
  | [] => Ok acc
  | x :: l' =>
    match body start x acc with
    | Ok acc' => for_enumerate (S start) l' body acc'
    | Raise e => Raise e
    end
  end.

(** [[f i x for i, x in enumerate(l, start)]]. *)
Fixpoint comprehension {A B} (start : nat) (l : list A)
    (f : nat → A → result B) : result (list B) :=
  match l with
  | [] => Ok []
  | x :: l' =>
    match f start x with
    | Ok b =>
      match comprehension (S start) l' f with
      | Ok bs => Ok (b :: bs)
      | Raise e => Raise e
      end
    | Raise e => Raise e
    end
  end.

(** Sequencing of computations that only compute. *)
Definition rbind {A B} (r : result A) (k : A → result B) : result B :=
  match r with
  | Ok a => k a
  | Raise e => Raise e
  end.

(** [d[key]] in such a computation. *)
Definition item {A} (key : string) (o : option A) : result A :=
  match o with
  | Some a => Ok a
  | None => Raise (KeyError key)
  end.

Definition print (line : console_line) : M unit :=
  modify (λ w, set_console (console w ++ [line]) w).

(** [time.sleep(seconds)]. *)
Definition sleep (seconds : Z) : M unit :=
  modify (λ w, set_slept (slept w + seconds) w).

(** [datetime.now()]. *)
Definition now : M datetime :=
  λ w, (Ok (clock w (clock_count w)), set_clock_count (S (clock_count w)) w).

(** [requests.post/patch/get]: the request goes out, and the marketplace's
    next reply comes back or the transport raises. *)
Definition http_request (r : request) : M response :=
  λ w, let w' := set_http_count (S (http_count w)) (set_sent (sent w ++ [r]) w) in
       match http w (http_count w) with
       | TransportError => (Raise RequestException, w')
       | Reply resp => (Ok resp, w')
       end.

(** [response.json()]. *)
Definition response_json (r : response) : M jvalue :=
  match body r with
  | Some v => ret v
  | None => raise JSONDecodeError
  end.

(** [v.get(...)] needs [v] to be an object. *)
Definition as_object (v : jvalue) : M jobject :=
  match v with
  | JObject o => ret o
  | JOther _ => raise AttributeError
  end.

(** [with open(path, 'a') as f: f.write(line)] on a log file. *)
Definition append_line (path : string) (e : log_entry) : M unit :=
  modify (λ w, set_api_logs
                 (<[path := default [] (api_logs w !! path) ++ [e]]> (api_logs w)) w).

(** [open(path, 'w')] creates or truncates a text file. *)
Definition open_w (path : string) : M unit :=
  modify (λ w, set_files (<[path := EmptyString]> (files w)) w).

(** [f.write(s)] on the file opened at [path]. *)
Definition f_write (path : string) (s : string) : M unit :=
  modify (λ w, set_files
                 (<[path := default EmptyString (files w !! path) +:+ s]> (files w)) w).

(** [self.logger.info(msg)] and [self.logger.error(msg)]. *)
Definition logger (lvl : log_level) (msg : log_msg) : M unit :=
  modify (λ w, set_automation_log (automation_log w ++ [(lvl, msg)]) w).

(* ===================================================================== *)
(** * whop_integration.py: class WhopIntegration                           *)
(* ===================================================================== *)

Module WhopIntegration.

(** The dict literal of [_get_category]. *)
Definition category_mapping : gmap string string :=
  <["ebook" := "education"]>
  (<["notion_template" := "productivity"]>
  (<["digital_planner" := "productivity"]>
  (<["email_templates" := "marketing"]>
  (<["course" := "education"]>
  (<["membership" := "community"]> ∅))))).

(** [category_mapping.get(product_type, 'other')]. *)
Definition _get_category (product_type : string) : string :=
  default "other" (category_mapping !! product_type).

(** [d.update(other)]: the keys of [other] win. *)
Definition dict_update (d other : gmap string value) : gmap string value :=
  other ∪ d.

Definition _format_for_whop_api (product_data : product_data) : whop_product :=
  let product_type := default "digital_product" (pd_type product_data) in
  let metadata : gmap string value :=
    <["auto_generated" := VBool true]>
    (<["product_type" := VStr product_type]>
    (<["plr_rights" := VBool (default true (pd_plr_rights product_data))]>
    (<["mrr_rights" := VBool (default true (pd_mrr_rights product_data))]>
    (<["created_by" := VStr "nosyt_automation"]>
    (<["word_count" := VInt (default 0 (pd_word_count product_data))]> ∅))))) in
  let metadata :=
    if String.eqb product_type "ebook" then
      dict_update metadata
        (<["chapters" := VInt (Z.of_nat (length (default [] (pd_chapters product_data))))]>
        (<["formats" := VStrs ["PDF"; "EPUB"; "DOCX"]]> ∅))
    else if String.eqb product_type "notion_template" then
      dict_update metadata
        (<["template_type" := opt_str (pd_template_type product_data)]>
        (<["use_case" := opt_str (pd_use_case product_data)]> ∅))
    else if String.eqb product_type "digital_planner" then
      dict_update metadata
        (<["planner_type" := opt_str (pd_planner_type product_data)]>
        (<["period" := opt_str (pd_period product_data)]>
        (<["formats" := VStrs (default [] (pd_formats product_data))]> ∅)))
    else metadata in
  {| wp_title := default "Untitled Product" (pd_title product_data);
     wp_description :=
       default "Professional digital product with PLR/MRR rights"
               (pd_description product_data);
     wp_price := default 2997 (pd_suggested_price product_data) * 100;
     wp_type := "one_time";
     wp_visibility := "public";
     wp_stock := -1;
     wp_category := _get_category product_type;
     wp_tags := default [] (pd_tags product_data);
     wp_metadata := metadata |}.

Definition _log_action (action status : string) (data : gmap string value) : M unit :=
  stamp <- now ;;
  let log_entry :=
    {| le_timestamp := dt_iso stamp; le_action := action;
       le_status := status; le_data := data |} in
  day <- now ;;
  let log_file := "logs/whop_api_" +:+ dt_ymd day +:+ ".log" in
  append_line log_file log_entry.

Definition create_product (product_data : product_data) : M (option jobject) :=
  print (PrintCreating (default "Untitled" (pd_title product_data))) ;;
  let whop_product := _format_for_whop_api product_data in
  try_except
    (response <- http_request (PostProduct whop_product) ;;
     if status_code response =? 201 then
       result <- response_json response ;;
       result <- as_object result ;;
       print (PrintCreated (o_id result)) ;;
       _log_action "create_product" "success"
         (<["product_id" := opt_str (o_id result)]>
         (<["title" := opt_str (pd_title product_data)]>
         (<["price" := VInt (wp_price whop_product)]> ∅))) ;;
       ret (Some result)
     else
       let error_msg :=
         "Failed to create product. Status: " +:+ pretty (status_code response)
         +:+ ", Response: " +:+ text response in
       print (PrintCreateFailed (status_code response) (text response)) ;;
       _log_action "create_product" "error"
         (<["title" := opt_str (pd_title product_data)]>
         (<["error" := VStr error_msg]> ∅)) ;;
       ret None)
    (λ e,
       print (PrintCreateException e) ;;
       _log_action "create_product" "error"
         (<["error" := VError "Exception creating product: " e]> ∅) ;;
       ret None).

Definition update_product_pricing (product_id : string) (new_price : Z) : M bool :=
  dollars <- lift (PyFloat.int_truediv new_price 100) ;;
  print (PrintUpdating product_id dollars) ;;
  try_except
    (response <- http_request (PatchPrice product_id new_price) ;;
     if status_code response =? 200 then
       print PrintUpdated ;;
       _log_action "update_price" "success"
         (<["product_id" := VStr product_id]>
         (<["new_price" := VInt new_price]> ∅)) ;;
       ret true
     else
       print (PrintUpdateFailed (text response)) ;;
       ret false)
    (λ e, print (PrintUpdateException e) ;; ret false).

Definition get_product_analytics (product_id : string) : M (option jvalue) :=
  try_except
    (response <- http_request (GetAnalytics product_id) ;;
     if status_code response =? 200 then
       result <- response_json response ;;
       ret (Some result)
     else
       print (PrintAnalyticsFailed (text response)) ;;
       ret None)
    (λ e, print (PrintAnalyticsException e) ;; ret None).

Definition list_products : M (list listing) :=
  try_except
    (response <- http_request GetProducts ;;
     if status_code response =? 200 then
       result <- response_json response ;;
       result <- as_object result ;;
       ret (default [] (o_data result))
     else
       print (PrintListFailed (text response)) ;;
       ret [])
    (λ e, print (PrintListException e) ;; ret []).

End WhopIntegration.

(* ===================================================================== *)
(** * whop_integration.py: class BatchUploader                             *)
(* ===================================================================== *)

Notation "'let?' x := c 'in' k" := (rbind c (λ x, k))
  (at level 10, x name, c at level 100, k at level 200).

(** [s.endswith(suffix)]. *)
Fixpoint ends_with_b (suffix s : string) : bool :=
  String.eqb s suffix ||
  match s with
  | EmptyString => false
  | String _ s' => ends_with_b suffix s'
  end.

(** [s.replace('\n', by)]. *)
Fixpoint replace_nl (by_ : string) (s : string) : string :=
  match s with
  | EmptyString => EmptyString
  | String c s' =>
    if Ascii.eqb c (Ascii.ascii_of_nat 10) then by_ +:+ replace_nl by_ s'
    else String c (replace_nl by_ s')
  end.

(** [str(x)] for an optional string: [None] prints as its name. *)
Definition str_opt (o : option string) : string := default "None" o.

Module BatchUploader.

Definition upload_delay : Z := 2.

(** The fixed text of the f-string of [_generate_ebook_html], between
    its replacement fields. *)
Definition html_head : string :=
  nl
  +:+ "<!DOCTYPE html>" +:+ nl
  +:+ "<html lang=" +:+ dq +:+ "en" +:+ dq +:+ ">" +:+ nl
  +:+ "<head>" +:+ nl
  +:+ "    <meta charset=" +:+ dq +:+ "UTF-8" +:+ dq +:+ ">" +:+ nl
  +:+ "    <meta name=" +:+ dq +:+ "viewport" +:+ dq +:+ " content=" +:+ dq +:+ "width=device-width, initial-scale=1.0" +:+ dq +:+ ">" +:+ nl
  +:+ "    <title>".

Definition html_style : string :=
  "</title>" +:+ nl
  +:+ "    <style>" +:+ nl
  +:+ "        body { font-family: Georgia, serif; line-height: 1.6; max-width: 800px; margin: 0 auto; padding: 20px; }" +:+ nl
  +:+ "        h1 { color: #333; border-bottom: 3px solid #007acc; padding-bottom: 10px; }" +:+ nl
  +:+ "        h2 { color: #555; margin-top: 30px; }" +:+ nl
  +:+ "        .subtitle { font-style: italic; color: #666; margin-bottom: 30px; }" +:+ nl
  +:+ "        .chapter { margin-bottom: 40px; page-break-after: always; }" +:+ nl
  +:+ "        .toc { background: #f9f9f9; padding: 20px; margin-bottom: 30px; }" +:+ nl
  +:+ "        .toc ul { list-style-type: none; }" +:+ nl
  +:+ "        .toc li { margin: 10px 0; }" +:+ nl
  +:+ "        .footer { text-align: center; margin-top: 50px; font-size: 0.9em; color: #666; }" +:+ nl
  +:+ "    </style>" +:+ nl
  +:+ "</head>" +:+ nl
  +:+ "<body>" +:+ nl
  +:+ "    <h1>".

Definition html_after_h1 : string :=
  "</h1>" +:+ nl
  +:+ "    ".

Definition html_toc_open : string :=
  nl
  +:+ "    " +:+ nl
  +:+ "    <div class=" +:+ dq +:+ "toc" +:+ dq +:+ ">" +:+ nl
  +:+ "        <h2>Table of Contents</h2>" +:+ nl
  +:+ "        <ul>" +:+ nl
  +:+ "        ".

Definition html_toc_close : string :=
  nl
  +:+ "        </ul>" +:+ nl
  +:+ "    </div>" +:+ nl
  +:+ "    " +:+ nl
  +:+ "    ".

Definition html_footer : string :=
  nl
  +:+ "    " +:+ nl
  +:+ "    <div class=" +:+ dq +:+ "footer" +:+ dq +:+ ">" +:+ nl
  +:+ "        <p>This ebook comes with Private Label Rights (PLR). You may edit, rebrand, and resell this content.</p>" +:+ nl
  +:+ "        <p>Generated by Nosyt Automation System</p>" +:+ nl
  +:+ "    </div>" +:+ nl
  +:+ "</body>" +:+ nl
  +:+ "</html>" +:+ nl
  +:+ "        ".

Definition _generate_ebook_html (product_data : product_data) : result string :=
  let title := default "Untitled Ebook" (pd_title product_data) in
  let subtitle := default "" (pd_subtitle product_data) in
  let chapters := default [] (pd_chapters product_data) in
  let? toc :=
    comprehension 0 chapters (λ i chapter,
      let? t := item "title" (ch_title chapter) in
      Ok ("<li>Chapter " +:+ str_of_nat (S i) +:+ ": " +:+ t +:+ "</li>")) in
  let? divs :=
    comprehension 0 chapters (λ i chapter,
      let? t := item "title" (ch_title chapter) in
      let? c := item "content" (ch_content chapter) in
      Ok ("<div class=" +:+ dq +:+ "chapter" +:+ dq +:+ "><h2>Chapter "
          +:+ str_of_nat (S i) +:+ ": " +:+ t +:+ "</h2><div>" +:+ c
          +:+ "</div></div>")) in
  let html :=
    html_head +:+ title +:+ html_style +:+ title +:+ html_after_h1
    +:+ (if str_truthy subtitle
         then "<p class=" +:+ dq +:+ "subtitle" +:+ dq +:+ ">" +:+ subtitle +:+ "</p>"
         else "")
    +:+ html_toc_open +:+ str_join toc +:+ html_toc_close
    +:+ str_join divs +:+ html_footer in
  Ok html.

Definition _generate_ebook_text (product_data : product_data) : result string :=
  let title := default "Untitled Ebook" (pd_title product_data) in
  let subtitle := default "" (pd_subtitle product_data) in
  let chapters := default [] (pd_chapters product_data) in
  let text := title +:+ nl +:+ str_repeat "=" (py_len title) +:+ nl +:+ nl in
  let text :=
    if str_truthy subtitle then text +:+ (subtitle +:+ nl +:+ nl) else text in
  let text := text +:+ ("TABLE OF CONTENTS" +:+ nl +:+ "-----------------" +:+ nl) in
  let? text :=
    for_enumerate 0 chapters (λ i chapter text,
      let? t := item "title" (ch_title chapter) in
      Ok (text +:+ ("Chapter " +:+ str_of_nat (S i) +:+ ": " +:+ t +:+ nl))) text in
  let text := text +:+ (nl +:+ nl) in
  let? text :=
    for_enumerate 0 chapters (λ i chapter text,
      let? t := item "title" (ch_title chapter) in
      let text := text +:+ ("Chapter " +:+ str_of_nat (S i) +:+ ": " +:+ t +:+ nl) in
      let? t := item "title" (ch_title chapter) in
      let text := text +:+ (str_repeat "-" (py_len t + 12) +:+ (nl +:+ nl)) in
      let? c := item "content" (ch_content chapter) in
      Ok (text +:+ (c +:+ (nl +:+ nl)))) text in
  let text := text +:+ (nl +:+ str_repeat "=" 50 +:+ nl) in
  let text := text +:+ ("This ebook comes with Private Label Rights (PLR)." +:+ nl) in
  let text := text +:+ ("You may edit, rebrand, and resell this content." +:+ nl) in
  let text := text +:+ ("Generated by Nosyt Automation System" +:+ nl) in
  Ok text.

Definition _generate_ebook_markdown (product_data : product_data) : result string :=
  let title := default "Untitled Ebook" (pd_title product_data) in
  let subtitle := default "" (pd_subtitle product_data) in
  let chapters := default [] (pd_chapters product_data) in
  let md := "# " +:+ title +:+ nl +:+ nl in
  let md :=
    if str_truthy subtitle then md +:+ ("*" +:+ subtitle +:+ "*" +:+ nl +:+ nl) else md in
  let md := md +:+ ("## Table of Contents" +:+ nl +:+ nl) in
  let? md :=
    for_enumerate 0 chapters (λ i chapter md,
      let? t := item "title" (ch_title chapter) in
      Ok (md +:+ (str_of_nat (S i) +:+ ". " +:+ t +:+ nl))) md in
  let md := md +:+ (nl +:+ "---" +:+ nl +:+ nl) in
  let? md :=
    for_enumerate 0 chapters (λ i chapter md,
      let? t := item "title" (ch_title chapter) in
      let md := md +:+ ("## Chapter " +:+ str_of_nat (S i) +:+ ": " +:+ t +:+ nl +:+ nl) in
      let? c := item "content" (ch_content chapter) in
      Ok (md +:+ (c +:+ (nl +:+ nl)))) md in
  let md := md +:+ ("---" +:+ nl +:+ nl) in
  let md := md +:+ "**PLR License**: This ebook comes with Private Label Rights (PLR). " in
  let md := md +:+ ("You may edit, rebrand, and resell this content." +:+ nl +:+ nl) in
  let md := md +:+ ("*Generated by Nosyt Automation System*" +:+ nl) in
  Ok md.

Definition _create_ebook_files (product_data : product_data)
    (product_id : option string) : M unit :=
  let output_dir := "output/" +:+ str_opt product_id in
  html_content <- lift (_generate_ebook_html product_data) ;;
  let html_file := output_dir +:+ "/ebook.html" in
  open_w html_file ;;
  f_write html_file html_content ;;
  text_content <- lift (_generate_ebook_text product_data) ;;
  let text_file := output_dir +:+ "/ebook.txt" in
  open_w text_file ;;
  f_write text_file text_content ;;
  md_content <- lift (_generate_ebook_markdown product_data) ;;
  let md_file := output_dir +:+ "/ebook.md" in
  open_w md_file ;;
  f_write md_file md_content ;;
  print (PrintFilesCreated "ebook" output_dir).

Definition _create_notion_template_files (product_data : product_data)
    (product_id : option string) : M unit :=
  let output_dir := "output/" +:+ str_opt product_id in
  let structure_file := output_dir +:+ "/notion_structure.json" in
  open_w structure_file ;;
  f_write structure_file (default "{}" (pd_structure product_data)) ;;
  let instructions := default [] (pd_instructions product_data) in
  let instructions_file := output_dir +:+ "/setup_instructions.md" in
  open_w instructions_file ;;
  f_write instructions_file
    ("# " +:+ default "Notion Template" (pd_name product_data)
     +:+ " - Setup Instructions" +:+ nl +:+ nl) ;;
  for_each_enumerate 1 instructions (λ i instruction,
    f_write instructions_file (str_of_nat i +:+ ". " +:+ instruction +:+ nl)) ;;
  print (PrintFilesCreated "notion" output_dir).

Definition _create_planner_files (product_data : product_data)
    (product_id : option string) : M unit :=
  let output_dir := "output/" +:+ str_opt product_id in
  let planner_file := output_dir +:+ "/planner_layouts.json" in
  open_w planner_file ;;
  f_write planner_file (default "{}" (pd_layouts product_data)) ;;
  let instructions_file := output_dir +:+ "/planner_instructions.md" in
  open_w instructions_file ;;
  f_write instructions_file
    ("# " +:+ default "Digital Planner" (pd_name product_data) +:+ nl +:+ nl) ;;
  f_write instructions_file ("## How to Use This Planner" +:+ nl +:+ nl) ;;
  f_write instructions_file ("This digital planner can be used with:" +:+ nl) ;;
  for_each (default [] (pd_formats product_data)) (λ format_type,
    f_write instructions_file ("- " +:+ format_type +:+ nl)) ;;
  print (PrintFilesCreated "planner" output_dir).

Definition _create_email_template_files (product_data : product_data)
    (product_id : option string) : M unit :=
  let output_dir := "output/" +:+ str_opt product_id in
  let templates := default [] (pd_templates product_data) in
  for_each_enumerate 1 templates (λ i template,
    ty <- getitem "type" (tp_type template) ;;
    let html_file :=
      output_dir +:+ "/template_" +:+ str_of_nat i +:+ "_" +:+ ty +:+ ".html" in
    open_w html_file ;;
    subject <- getitem "subject_line" (tp_subject_line template) ;;
    f_write html_file
      ("<!DOCTYPE html>" +:+ nl +:+ "<html>" +:+ nl +:+ "<head>" +:+ nl
       +:+ "<title>" +:+ subject +:+ "</title>" +:+ nl +:+ "</head>" +:+ nl
       +:+ "<body>" +:+ nl) ;;
    content <- getitem "content" (tp_content template) ;;
    f_write html_file (replace_nl ("<br>" +:+ nl) content) ;;
    f_write html_file (nl +:+ "</body>" +:+ nl +:+ "</html>") ;;
    ty <- getitem "type" (tp_type template) ;;
    let txt_file :=
      output_dir +:+ "/template_" +:+ str_of_nat i +:+ "_" +:+ ty +:+ ".txt" in
    open_w txt_file ;;
    subject <- getitem "subject_line" (tp_subject_line template) ;;
    f_write txt_file ("Subject: " +:+ subject +:+ nl +:+ nl) ;;
    content <- getitem "content" (tp_content template) ;;
    f_write txt_file content) ;;
  print (PrintFilesCreated "email" output_dir).

Definition _create_digital_files (product_data : product_data)
    (product_id : option string) : M unit :=
  let product_type := pd_type product_data in
  if bool_decide (product_type = Some "ebook") then
    _create_ebook_files product_data product_id
  else if bool_decide (product_type = Some "notion_template") then
    _create_notion_template_files product_data product_id
  else if bool_decide (product_type = Some "digital_planner") then
    _create_planner_files product_data product_id
  else if bool_decide (product_type = Some "email_templates") then
    _create_email_template_files product_data product_id
  else ret tt.

(** [with open(file_path, 'r') as f: product_data = json.load(f)]. *)
Definition json_load (f : stored_file) : M product_data :=
  match f with
  | Parsed d => ret d
  | Unreadable e => raise e
  end.

(** [list(products_path.glob('*.json'))] on the entries of a directory. *)
Definition glob_json (entries : list (string * stored_file))
    : list (string * stored_file) :=
  filter (λ entry, ends_with_b ".json" entry.1 = true) entries.

(** The body of the [for] loop of [upload_products_from_directory]. The
    results dict is the [batch] cell of the world: what is written to it
    before an exception stays written. *)
Definition upload_one (file_path : string * stored_file) : M unit :=
  try_except
    (product_data <- json_load file_path.2 ;;
     result <- WhopIntegration.create_product product_data ;;
     let on_falsy : M unit :=
       modify (λ w, set_batch
         {| success := success (batch w); failed := failed (batch w) + 1;
            products := products (batch w) |} w) ;;
       modify (λ w, set_batch
         {| success := success (batch w); failed := failed (batch w);
            products := products (batch w) ++
              [{| ur_title := pd_title product_data;
                  ur_whop_id := None;
                  ur_status := "failed" |}] |} w) in
     match result with
     | Some result =>
       if obj_truthy result then
         modify (λ w, set_batch
           {| success := success (batch w) + 1; failed := failed (batch w);
              products := products (batch w) |} w) ;;
         modify (λ w, set_batch
           {| success := success (batch w); failed := failed (batch w);
              products := products (batch w) ++
                [{| ur_title := pd_title product_data;
                    ur_whop_id := Some (o_id result);
                    ur_status := "success" |}] |} w) ;;
         _create_digital_files product_data (o_id result)
       else on_falsy
     | None => on_falsy
     end ;;
     sleep upload_delay)
    (λ e,
       print (PrintErrorProcessing file_path.1 e) ;;
       modify (λ w, set_batch
         {| success := success (batch w); failed := failed (batch w) + 1;
            products := products (batch w) |} w)).

Definition upload_products_from_directory (products_dir : string) : M upload_results :=
  entries <- gets (λ w, dirs w !! products_dir) ;;
  match entries with
  | None =>
    print (PrintDirNotFound products_dir) ;;
    ret {| success := 0; failed := 0; products := [] |}
  | Some entries =>
    let json_files := glob_json entries in
    print (PrintFound (length json_files)) ;;
    modify (set_batch {| success := 0; failed := 0; products := [] |}) ;;
    for_each json_files upload_one ;;
    results <- gets batch ;;
    print (PrintUploadComplete (success results) (failed results)) ;;
    ret results
  end.

End BatchUploader.

(* ===================================================================== *)
(** * ai_product_generator.py: the save path of the generator              *)
(* ===================================================================== *)

Module AIProductGenerator.

Definition products_dir : string := "generated_products".

(** The dict literal of [_calculate_price]. *)
Definition base_prices : gmap string Z :=
  <["ebook" := 15]>
  (<["notion_template" := 25]>
  (<["planner" := 20]>
  (<["email_templates" := 3]>
  (<["course" := 100]>
  (<["bundle" := 50]> ∅))))).

Definition _calculate_price (product_type : string) (quantity : Z) : result Z :=
  let base_price := default 20 (base_prices !! product_type) in
  if String.eqb product_type "email_templates" then Ok (base_price * quantity)
  else if quantity >? 5 then
    let? x := PyFloat.int_mul base_price PyFloat.lit_1_5 in
    PyFloat.to_int x
  else Ok base_price.

(** The package that [generate_ebook] assembles from the outline's title
    and subtitle, the generated chapters, and the results of
    [_generate_tags] and [_generate_description]. *)
Definition ebook_package (title : string) (subtitle : option string)
    (content_sections : list (string * string)) (word_count : Z)
    (tags : list string) (description : string) : result product_data :=
  let? price := _calculate_price "ebook" (Z.of_nat (length content_sections)) in
  Ok {| pd_type := Some "ebook";
        pd_title := Some title;
        pd_subtitle := Some (default "" subtitle);
        pd_description := Some description;
        pd_suggested_price := Some price;
        pd_tags := Some tags;
        pd_plr_rights := Some true;
        pd_mrr_rights := Some true;
        pd_word_count := Some word_count;
        pd_chapters :=
          Some (map (λ section, {| ch_title := Some section.1;
                                   ch_content := Some section.2 |})
                    content_sections);
        pd_template_type := None; pd_use_case := None;
        pd_planner_type := None; pd_period := None; pd_formats := None;
        pd_name := None; pd_structure := None; pd_instructions := None;
        pd_layouts := None; pd_templates := None |}.

Section Store.
(** [json.dump(..., indent=2)] and [json.load] belong to Python's
    library: they are parameters here. A file holds text. *)
Variable json_dumps : product_data → string.
Variable json_loads : string → option product_data.


End Store.

End AIProductGenerator.

(* ===================================================================== *)
(** * auto_launcher.py: class AutoLauncher                                 *)
(* ===================================================================== *)

(** [for x in l: acc = body x acc]. *)
Fixpoint fold_m {A T} (l : list A) (body : A → T → M T) (acc : T) : M T :=
  match l with
  | [] => ret acc
  | x :: l' => acc' <- body x acc ;; fold_m l' body acc'
  end.

(** [l[i]]. *)
Definition index {A} (l : list A) (i : nat) : M A :=
  match l !! i with
  | Some a => ret a
  | None => raise IndexError
  end.

(** [s.startswith(prefix)], returning the rest. *)
Fixpoint strip_prefix (prefix s : string) : option string :=
  match prefix, s with
  | EmptyString, _ => Some s
  | String a p', String b s' => if Ascii.eqb a b then strip_prefix p' s' else None
  | String _ _, EmptyString => None
  end.

(** The name [s] matches the pattern [*mid*suffix]. *)
Fixpoint glob_mid (mid suffix s : string) : bool :=
  match strip_prefix mid s with
  | Some rest => ends_with_b suffix rest
  | None => false
  end ||
  match s with
  | EmptyString => false
  | String _ s' => glob_mid mid suffix s'
  end.

Module AutoLauncher.

Definition profitable_niches : list (string * string * string) :=
  [ ("Social Media Marketing Mastery", "entrepreneurs", "business");
    ("Dropshipping Empire Blueprint", "ecommerce beginners", "business");
    ("Real Estate Investment Guide", "investors", "finance");
    ("Affiliate Marketing Secrets", "online marketers", "business");
    ("Email Marketing Templates", "business owners", "marketing");
    ("Ultimate Productivity Planner", "professionals", "productivity");
    ("Digital Detox Challenge", "wellness seekers", "wellness");
    ("Goal Setting Workbook", "achievers", "productivity");
    ("Time Management Mastery", "busy professionals", "productivity");
    ("Habit Tracker Templates", "self-improvement", "wellness");
    ("30-Day Fitness Planner", "fitness enthusiasts", "wellness");
    ("Meal Prep Made Simple", "health conscious", "wellness");
    ("Mental Health Journal", "wellness seekers", "wellness");
    ("Stress Management Guide", "professionals", "wellness");
    ("Sleep Optimization Blueprint", "health optimizers", "wellness");
    ("Personal Finance Tracker", "young adults", "finance");
    ("Cryptocurrency Basics", "crypto beginners", "finance");
    ("Retirement Planning Guide", "adults 30+", "finance");
    ("Side Hustle Starter Kit", "income seekers", "business");
    ("Budgeting Templates Bundle", "savers", "finance") ].

Definition daily_targets : list (string * nat) :=
  [ ("ebooks", 2%nat); ("templates", 3%nat); ("planners", 1%nat);
    ("email_templates", 1%nat) ].

(** A call [self.generator.generate_*(...)]: the generator does what its
    oracle says; a document that it saves lands in the products
    directory. *)
Definition call_generator (call : gen_call) : M (option product_data) :=
  λ w,
    let w' := set_generator_calls (generator_calls w ++ [call]) w in
    match generator w (length (generator_calls w)) with
    | GenRaise e => (Raise e, w')
    | GenNone => (Ok None, w')
    | GenProduct file_name d =>
      let entries := default [] (dirs w' !! AIProductGenerator.products_dir) in
      (Ok (Some d),
       set_dirs (<[AIProductGenerator.products_dir :=
                     filter (λ entry, entry.1 ≠ file_name) entries
                     ++ [(file_name, Parsed d)]]> (dirs w')) w')
    end.

(** The body of the inner loop of [_generate_daily_products]. *)
Definition generate_one (product_type : string) (i : nat) (generated_count : Z) : M Z :=
  try_except
    (niche_data <- index profitable_niches
                     (Z.to_nat (generated_count `mod` Z.of_nat (length profitable_niches))) ;;
     let '(topic, audience, category) := niche_data in
     result <-
       (if String.eqb product_type "ebooks" then
          call_generator (GenerateEbook topic audience)
        else if String.eqb product_type "templates" then
          let template_types :=
            ["productivity dashboard"; "project tracker"; "content calendar";
             "business planner"] in
          template_type <- index template_types (i `mod` length template_types)%nat ;;
          call_generator (GenerateNotionTemplate template_type topic)
        else if String.eqb product_type "planners" then
          let periods := ["daily"; "weekly"; "monthly"] in
          period <- index periods (i `mod` length periods)%nat ;;
          call_generator (GeneratePlannerTemplate category period)
        else if String.eqb product_type "email_templates" then
          call_generator (GenerateEmailTemplates category 5)
        else raise UnboundLocalError) ;;
     generated_count <-
       match result with
       | Some result =>
         logger INFO (MsgGenerated product_type (default "Untitled" (pd_title result))) ;;
         ret (generated_count + 1)
       | None => ret generated_count
       end ;;
     sleep 2 ;;
     ret generated_count)
    (λ e, logger ERROR (MsgGenerateFailed product_type e) ;; ret generated_count).

Definition _generate_daily_products : M Z :=
  fold_m daily_targets (λ '(product_type, target_count) generated_count,
    fold_m (seq 0 target_count) (generate_one product_type) generated_count) 0.

Definition _upload_pending_products : M upload_results :=
  BatchUploader.upload_products_from_directory "generated_products".

(** [product.get('metadata', {}).get('auto_generated')], as a condition. *)
Definition is_auto_generated (product : listing) : bool :=
  default false (l_auto_generated product).

(** Truthiness of what [get_product_analytics] returns. *)
Definition analytics_truthy (analytics : option jvalue) : bool :=
  match analytics with
  | Some v => jvalue_truthy v
  | None => false
  end.

(** [analytics.get(...)] on what [get_product_analytics] returned. *)
Definition analytics_object (analytics : option jvalue) : M jobject :=
  match analytics with
  | Some v => as_object v
  | None => raise AttributeError
  end.

(** The body of the [for] loop of [_optimize_product_prices]. *)
Definition optimize_one (product : listing) : M unit :=
  if is_auto_generated product then
    id <- getitem "id" (l_id product) ;;
    analytics <- WhopIntegration.get_product_analytics id ;;
    (if analytics_truthy analytics then
       analytics <- analytics_object analytics ;;
       let views := default 0 (o_views analytics) in
       let purchases := default 0 (o_purchases analytics) in
       let current_price := default 0 (l_price product) in
       if (views >? 100) && (purchases <? 5) then
         x <- lift (PyFloat.int_mul current_price PyFloat.lit_0_8) ;;
         new_price <- lift (PyFloat.to_int x) ;;
         id <- getitem "id" (l_id product) ;;
         WhopIntegration.update_product_pricing id new_price ;;
         title <- getitem "title" (l_title product) ;;
         logger INFO (MsgReducedPrice title)
       else if (views >? 50) && (purchases >? 10) then
         conversion_rate <- lift (PyFloat.int_truediv purchases views) ;;
         if PyFloat.gt conversion_rate PyFloat.lit_0_1 then
           x <- lift (PyFloat.int_mul current_price PyFloat.lit_1_2) ;;
           new_price <- lift (PyFloat.to_int x) ;;
           id <- getitem "id" (l_id product) ;;
           WhopIntegration.update_product_pricing id new_price ;;
           title <- getitem "title" (l_title product) ;;
           logger INFO (MsgIncreasedPrice title)
         else ret tt
       else ret tt
     else ret tt) ;;
    sleep 1
  else ret tt.

Definition _optimize_product_prices : M unit :=
  logger INFO MsgStartingPriceOptimization ;;
  try_except
    (products <- WhopIntegration.list_products ;;
     for_each products optimize_one)
    (λ e, logger ERROR (MsgPriceOptimizationFailed e)).

Definition _generate_daily_report : M unit :=
  logger INFO MsgGeneratingReport ;;
  try_except
    (products <- WhopIntegration.list_products ;;
     let auto_generated := filter (λ p, is_auto_generated p = true) products in
     let total_products := Z.of_nat (length auto_generated) in
     totals <-
       fold_m auto_generated (λ product '(total_revenue, total_sales),
         id <- getitem "id" (l_id product) ;;
         analytics <- WhopIntegration.get_product_analytics id ;;
         if analytics_truthy analytics then
           analytics <- analytics_object analytics ;;
           let total_sales := total_sales + default 0 (o_purchases analytics) in
           let total_revenue := total_revenue + default 0 (o_revenue analytics) in
           ret (total_revenue, total_sales)
         else ret (total_revenue, total_sales)) (0, 0) ;;
     let '(total_revenue, total_sales) := totals in
     date <- now ;;
     revenue <-
       (if total_revenue =? 0 then ret (NInt 0)
        else x <- lift (PyFloat.int_truediv total_revenue 100) ;; ret (NFloat x)) ;;
     average_price <-
       (if total_sales =? 0 then ret (NInt 0)
        else x <- lift (PyFloat.int_truediv total_revenue total_sales) ;;
             y <- lift (PyFloat.div_int x 100) ;;
             ret (NFloat y)) ;;
     today <- now ;;
     entries <- gets (λ w, default [] (dirs w !! "generated_products")) ;;
     let generated_today :=
       length (filter (λ entry, glob_mid (dt_ymd today) ".json" entry.1 = true) entries) in
     let report :=
       {| rp_date := dt_iso date;
          rp_total_products := total_products;
          rp_total_sales := total_sales;
          rp_total_revenue := revenue;
          rp_average_price := average_price;
          rp_generated_today := Z.of_nat generated_today |} in
     day <- now ;;
     let report_file := "reports/daily_report_" +:+ dt_ymd day +:+ ".json" in
     modify (λ w, set_reports (<[report_file := report]> (reports w)) w) ;;
     logger INFO (MsgReportSaved (rp_total_sales report)))
    (λ e, logger ERROR (MsgReportFailed e)).

Definition run_daily_automation (config : config) : M unit :=
  logger INFO MsgStartingCycle ;;
  try_except
    ((if auto_generate config then
        generated_count <- _generate_daily_products ;;
        logger INFO (MsgGeneratedCount generated_count)
      else ret tt) ;;
     (if auto_upload config then
        upload_results <- _upload_pending_products ;;
        logger INFO (MsgUploadResults (success upload_results) (failed upload_results))
      else ret tt) ;;
     (if price_optimization config then _optimize_product_prices else ret tt) ;;
     _generate_daily_report ;;
     logger INFO MsgCycleCompleted)
    (λ e, logger ERROR (MsgCycleFailed e)).

End AutoLauncher.

(* ===================================================================== *)
(** * Vocabulary of the statements                                         *)
(* ===================================================================== *)

(** A world in which nothing has happened yet, for given oracles. *)
Definition initial_world (http : nat → http_result) (clock : nat → datetime)
    (generator : nat → gen_result)
    (dirs : gmap string (list (string * stored_file))) : world :=
  {| http := http; clock := clock; generator := generator;
     http_count := 0; sent := []; clock_count := 0; generator_calls := [];
     console := []; api_logs := ∅; files := ∅; dirs := dirs;
     batch := {| success := 0; failed := 0; products := [] |};
     automation_log := []; reports := ∅; slept := 0 |}.

(** The log line that [_log_action action status data] writes in [w], and
    the file it writes it to. *)
Definition log_line (action status : string) (data : gmap string value)
    (w : world) : log_entry :=
  {| le_timestamp := dt_iso (clock w (clock_count w)); le_action := action;
     le_status := status; le_data := data |}.

Definition log_file (w : world) : string :=
  "logs/whop_api_" +:+ dt_ymd (clock w (S (clock_count w))) +:+ ".log".

(** The log files after one line has been appended to the file [path]. *)
Definition appended (path : string) (e : log_entry)
    (logs : gmap string (list log_entry)) : gmap string (list log_entry) :=
  <[path := default [] (logs !! path) ++ [e]]> logs.


(** What [create_product] makes of the marketplace's reply. *)
Definition created (r : http_result) : option jobject :=
  match r with
  | Reply resp =>
    if status_code resp =? 201 then
      match body resp with
      | Some (JObject o) => Some o
      | _ => None
      end
    else None
  | TransportError => None
  end.

(** The reply makes the creation succeed in the eyes of the batch
    uploader: [create_product] returns a truthy object. *)
Definition creation_ok (r : http_result) : bool :=
  match created r with
  | Some o => obj_truthy o
  | None => false
  end.

(** A computation always returns: no exception leaves it. *)
Definition always_returns {A} (c : M A) : Prop :=
  ∀ w, ∃ a w', c w = (Ok a, w').

(** Every run of the computation relates the world before to the world
    after, whether it returns or raises. *)
Definition respects (R : relation world) {A} (c : M A) : Prop :=
  ∀ w, R w (c w).2.

(** [unchanged f]: the component [f] of the world is the same after as
    before. *)
Definition unchanged {A} (f : world → A) : relation world :=
  λ w w', f w' = f w.

(** [grows f]: the list [f] of the world is only appended to. *)
Definition grows {A} (f : world → list A) : relation world :=
  λ w w', ∃ l, f w' = f w ++ l.


(** Oracles and worlds of the examples. *)
Definition fixed_clock : nat → datetime :=
  λ _, {| dt_iso := "2024-01-01T09:00:00"; dt_ymd := "20240101" |}.

Definition idle_generator : nat → gen_result := λ _, GenNone.

(** A marketplace that answers every request with a server error. *)
Definition failing_marketplace : nat → http_result :=
  λ _, Reply {| status_code := 500; text := "Internal Server Error"; body := None |}.


(** A marketplace that creates every listing, with the id [p_1]. *)
Definition creating_marketplace : nat → http_result :=
  λ _, Reply {| status_code := 201; text := "";
                body := Some (JObject {| o_id := Some "p_1"; o_data := None;
                                         o_views := None; o_purchases := None;
                                         o_revenue := None; o_other := false |}) |}.

(** A document with no key at all. *)
Definition empty_document : product_data :=
  {| pd_type := None; pd_title := None; pd_subtitle := None; pd_description := None;
     pd_suggested_price := None; pd_tags := None; pd_plr_rights := None;
     pd_mrr_rights := None; pd_word_count := None; pd_chapters := None;
     pd_template_type := None; pd_use_case := None; pd_planner_type := None;
     pd_period := None; pd_formats := None; pd_name := None; pd_structure := None;
     pd_instructions := None; pd_layouts := None; pd_templates := None |}.

(** The ebook of the specification's scenario: title T, chapters A and B,
    suggested price 15. *)
Definition scenario_ebook : product_data :=
  {| pd_type := Some "ebook"; pd_title := Some "T"; pd_subtitle := None;
     pd_description := None; pd_suggested_price := Some 15; pd_tags := None;
     pd_plr_rights := None; pd_mrr_rights := None; pd_word_count := None;
     pd_chapters := Some [ {| ch_title := Some "A"; ch_content := Some "x" |};
                           {| ch_title := Some "B"; ch_content := Some "y" |} ];
     pd_template_type := None; pd_use_case := None; pd_planner_type := None;
     pd_period := None; pd_formats := None; pd_name := None; pd_structure := None;
     pd_instructions := None; pd_layouts := None; pd_templates := None |}.

(** An ebook whose second chapter has no content. *)
Definition broken_ebook : product_data :=
  {| pd_type := Some "ebook"; pd_title := Some "T"; pd_subtitle := None;
     pd_description := None; pd_suggested_price := Some 15; pd_tags := None;
     pd_plr_rights := None; pd_mrr_rights := None; pd_word_count := None;
     pd_chapters := Some [ {| ch_title := Some "A"; ch_content := Some "x" |};
                           {| ch_title := Some "B"; ch_content := None |} ];
     pd_template_type := None; pd_use_case := None; pd_planner_type := None;
     pd_period := None; pd_formats := None; pd_name := None; pd_structure := None;
     pd_instructions := None; pd_layouts := None; pd_templates := None |}.

(** The chapter with the given title and content; the documents that the
    generator saves have only such chapters. *)
Definition chapter_of (tc : string * string) : chapter :=
  {| ch_title := Some tc.1; ch_content := Some tc.2 |}.

(** A chapter, or an email template, has the keys that rendering reads. *)
Definition chapter_ok (c : chapter) : bool :=
  present (ch_title c) && present (ch_content c).

Definition template_ok (t : template) : bool :=
  present (tp_type t) && present (tp_subject_line t) && present (tp_content t).

(** The deliverable files of the document can be rendered. *)
Definition renderable (d : product_data) : bool :=
  if bool_decide (pd_type d = Some "ebook") then
    forallb chapter_ok (default [] (pd_chapters d))
  else if bool_decide (pd_type d = Some "email_templates") then
    forallb template_ok (default [] (pd_templates d))
  else true.

(** What one document does to the tallies, given the marketplace's reply
    to its creation request. *)
Definition count_failure (b : upload_results) : upload_results :=
  {| success := success b; failed := failed b + 1; products := products b |}.

Definition after_one (reply : http_result) (f : stored_file) (b : upload_results)
    : upload_results :=
  match f with
  | Unreadable _ => count_failure b
  | Parsed d =>
    match created reply with
    | Some o =>
      if obj_truthy o then
        {| success := success b + 1;
           failed := if renderable d then failed b else failed b + 1;
           products := products b ++ [{| ur_title := pd_title d;
                                         ur_whop_id := Some (o_id o);
                                         ur_status := "success" |}] |}
      else
        {| success := success b; failed := failed b + 1;
           products := products b ++ [{| ur_title := pd_title d; ur_whop_id := None;
                                         ur_status := "failed" |}] |}
    | None =>
      {| success := success b; failed := failed b + 1;
         products := products b ++ [{| ur_title := pd_title d; ur_whop_id := None;
                                       ur_status := "failed" |}] |}
    end
  end.

(** The number of requests that the document costs. *)
Definition requests_of (f : stored_file) : nat :=
  match f with Unreadable _ => 0%nat | Parsed _ => 1%nat end.

(** The tallies after the documents [files], when the next request is
    the [n]-th. *)
Fixpoint tally (http : nat → http_result) (files : list (string * stored_file))
    (n : nat) (b : upload_results) : upload_results :=
  match files with
  | [] => b
  | file :: files' => tally http files' (n + requests_of file.2) (after_one (http n) file.2 b)
  end.

(** How a document fares in a batch upload: its file cannot be read; its
    creation fails; it is listed and its files are rendered; it is listed
    and rendering its files raises. *)
Inductive outcome := Skipped | Rejected | Listed | ListedUnrendered.

#[global] Instance outcome_eq_dec : EqDecision outcome.
Proof. solve_decision. Defined.

Definition outcome_of (reply : http_result) (f : stored_file) : outcome :=
  match f with
  | Unreadable _ => Skipped
  | Parsed d =>
    if creation_ok reply then (if renderable d then Listed else ListedUnrendered)
    else Rejected
  end.

Fixpoint outcomes (http : nat → http_result) (files : list (string * stored_file))
    (n : nat) : list outcome :=
  match files with
  | [] => []
  | file :: files' =>
    outcome_of (http n) file.2 :: outcomes http files' (n + requests_of file.2)
  end.

Definition count (o : outcome) (os : list outcome) : Z :=
  Z.of_nat (length (filter (λ o', o' = o) os)).

Definition no_results : upload_results := {| success := 0; failed := 0; products := [] |}.


(** A products directory that holds the given files. *)
Definition store (entries : list (string * stored_file))
    : gmap string (list (string * stored_file)) :=
  {["generated_products" := entries]}.

(** A marketplace that creates the first listing and refuses the others. *)
Definition mixed_marketplace : nat → http_result :=
  λ n, match n with O => creating_marketplace n | _ => failing_marketplace n end.

(** ** The layout of a rendered ebook

    For each of the three formats: the front matter (title, optional
    subtitle, heading of the table of contents), the entry of a chapter in
    the table of contents, a chapter, and the back matter. *)

Definition chapter_heading (i : nat) (t : string) : string :=
  "Chapter " +:+ str_of_nat (S i) +:+ ": " +:+ t.

Definition license_notice : string :=
  "This ebook comes with Private Label Rights (PLR).".

Definition html_front (T S : string) : string :=
  BatchUploader.html_head +:+ T +:+ BatchUploader.html_style +:+ T +:+ BatchUploader.html_after_h1
  +:+ (if str_truthy S
       then "<p class=" +:+ dq +:+ "subtitle" +:+ dq +:+ ">" +:+ S +:+ "</p>"
       else "")
  +:+ BatchUploader.html_toc_open.
Definition html_toc_entry (i : nat) (tc : string * string) : string :=
  "<li>" +:+ chapter_heading i tc.1 +:+ "</li>".
Definition html_chapter (i : nat) (tc : string * string) : string :=
  "<div class=" +:+ dq +:+ "chapter" +:+ dq +:+ "><h2>" +:+ chapter_heading i tc.1
  +:+ "</h2><div>" +:+ tc.2 +:+ "</div></div>".

Definition text_front (T S : string) : string :=
  T +:+ nl +:+ str_repeat "=" (py_len T) +:+ nl +:+ nl
  +:+ (if str_truthy S then S +:+ nl +:+ nl else "")
  +:+ "TABLE OF CONTENTS" +:+ nl +:+ "-----------------" +:+ nl.
Definition text_toc_entry (i : nat) (tc : string * string) : string :=
  chapter_heading i tc.1 +:+ nl.
Definition text_chapter (i : nat) (tc : string * string) : string :=
  chapter_heading i tc.1 +:+ nl +:+ str_repeat "-" (py_len tc.1 + 12) +:+ nl +:+ nl
  +:+ tc.2 +:+ nl +:+ nl.
Definition text_back : string :=
  nl +:+ str_repeat "=" 50 +:+ nl
  +:+ license_notice +:+ nl
  +:+ "You may edit, rebrand, and resell this content." +:+ nl
  +:+ "Generated by Nosyt Automation System" +:+ nl.

Definition md_front (T S : string) : string :=
  "# " +:+ T +:+ nl +:+ nl
  +:+ (if str_truthy S then "*" +:+ S +:+ "*" +:+ nl +:+ nl else "")
  +:+ "## Table of Contents" +:+ nl +:+ nl.
Definition md_toc_entry (i : nat) (tc : string * string) : string :=
  str_of_nat (S i) +:+ ". " +:+ tc.1 +:+ nl.
Definition md_chapter (i : nat) (tc : string * string) : string :=
  "## " +:+ chapter_heading i tc.1 +:+ nl +:+ nl +:+ tc.2 +:+ nl +:+ nl.
Definition md_back : string :=
  "---" +:+ nl +:+ nl +:+ "**PLR License**: " +:+ license_notice
  +:+ " You may edit, rebrand, and resell this content." +:+ nl +:+ nl
  +:+ "*Generated by Nosyt Automation System*" +:+ nl.


(** What the launcher logs during the generation stage when every call of
    the generator raises [e]: one error per product of the daily quota. *)
Definition generation_failures (e : exn) : list (log_level * log_msg) :=
  [ (ERROR, MsgGenerateFailed "ebooks" e); (ERROR, MsgGenerateFailed "ebooks" e);
    (ERROR, MsgGenerateFailed "templates" e); (ERROR, MsgGenerateFailed "templates" e);
    (ERROR, MsgGenerateFailed "templates" e); (ERROR, MsgGenerateFailed "planners" e);
    (ERROR, MsgGenerateFailed "email_templates" e) ].





(** The configuration with every stage enabled. *)
Definition all_stages : config :=
  {| auto_generate := true; auto_upload := true; price_optimization := true |}.

(** A generator of which every call raises. *)
Definition raising_generator : nat → gen_result := λ _, GenRaise GeneratorError.

(** ** The pricing rule

    What the optimizer decides for one listing, and the rule as it is
    documented, over the integers: [floor(p * 0.8)] is [p * 8 / 10],
    [floor(p * 1.2)] is [p * 12 / 10], and for [views > 50] the ratio
    [purchases / views] is above [0.10] when [views < 10 * purchases]. *)
Inductive price_decision :=
| Reduce (new_price : Z)
| Increase (new_price : Z)
| NoChange.

Definition documented_price_rule (views purchases p : Z) : price_decision :=
  if (views >? 100) && (purchases <? 5) then Reduce (p * 8 / 10)
  else if (views >? 50) && (purchases >? 10) && (views <? 10 * purchases)
  then Increase (p * 12 / 10)
  else NoChange.

(** The requests a decision asks of the marketplace for the listing [id]. *)
Definition price_updates (id : string) (d : price_decision) : list request :=
  match d with
  | Reduce n | Increase n => [PatchPrice id n]
  | NoChange => []
  end.

(** The analytics the marketplace is about to report, when its next reply
    is a 200 with a non-empty JSON object. *)
Definition analytics_of (w : world) : option jobject :=
  match http w (http_count w) with
  | Reply r =>
    if status_code r =? 200 then
      match body r with
      | Some (JObject o) => if obj_truthy o then Some o else None
      | _ => None
      end
    else None
  | TransportError => None
  end.

(** A marketplace that answers every request with a 200 and the same
    analytics. *)
Definition reporting_marketplace (views purchases : Z) : nat → http_result :=
  λ _, Reply {| status_code := 200; text := "";
                body := Some (JObject {| o_id := None; o_data := None;
                                         o_views := Some views;
                                         o_purchases := Some purchases;
                                         o_revenue := None; o_other := false |}) |}.

(** A listing made by the generator, with the price [p] in cents. *)
Definition generated_listing (p : Z) : listing :=
  {| l_id := Some "p_1"; l_title := Some "Guide"; l_price := Some p;
     l_auto_generated := Some true |}.

(* ===================================================================== *)
(** * Reasoning about computations                                         *)
(* ===================================================================== *)

Section Total.

Lemma returns_ret {A} (a : A) : always_returns (ret a).
Proof. intros w. by exists a, w. Qed.

Lemma returns_modify f : always_returns (modify f).
Proof. intros w. by exists tt, (f w). Qed.

Lemma returns_gets {A} (f : world → A) : always_returns (gets f).
Proof. intros w. by exists (f w), w. Qed.

Lemma returns_now : always_returns now.
Proof. intros w. eexists _, _. reflexivity. Qed.

Lemma returns_bind {A B} (c : M A) (k : A → M B) :
  always_returns c → (∀ a, always_returns (k a)) → always_returns (bind c k).
Proof.
  intros Hc Hk w. destruct (Hc w) as (a & w1 & E).
  destruct (Hk a w1) as (b & w2 & E2).
  exists b, w2. unfold bind. by rewrite E.
Qed.

(** A [try] whose handler returns always returns, whatever its body
    does. *)
Lemma returns_try_except {A} (c : M A) (h : exn → M A) :
  (∀ e, always_returns (h e)) → always_returns (try_except c h).
Proof.
  intros Hh w. unfold try_except.
  destruct (c w) as [[a|e] w1]; [by exists a, w1 | apply Hh].
Qed.

Lemma returns_for_each {A} (l : list A) (body : A → M unit) :
  (∀ x, always_returns (body x)) → always_returns (for_each l body).
Proof.
  intros Hb. induction l as [|x l IH]; simpl.
  - apply returns_ret.
  - apply returns_bind; [apply Hb | intros _; apply IH].
Qed.

Lemma returns_for_each_enumerate {A} (l : list A) (body : nat → A → M unit) n :
  (∀ i x, always_returns (body i x)) → always_returns (for_each_enumerate n l body).
Proof.
  intros Hb. revert n. induction l as [|x l IH]; intros n; simpl.
  - apply returns_ret.
  - apply returns_bind; [apply Hb | intros _; apply IH].
Qed.

Lemma returns_fold_m {A T} (l : list A) (body : A → T → M T) (acc : T) :
  (∀ x t, always_returns (body x t)) → always_returns (fold_m l body acc).
Proof.
  intros Hb. revert acc. induction l as [|x l IH]; intros acc; simpl.
  - apply returns_ret.
  - apply returns_bind; [apply Hb | intros t; apply IH].
Qed.

End Total.

Section Respects.

Context (R : relation world) `{!PreOrder R}.

Lemma respects_ret {A} (a : A) : respects R (ret a).
Proof. intros w. reflexivity. Qed.

Lemma respects_raise {A} e : respects R (@raise A e).
Proof. intros w. reflexivity. Qed.

Lemma respects_lift {A} (r : result A) : respects R (lift r).
Proof. intros w. reflexivity. Qed.

Lemma respects_gets {A} (f : world → A) : respects R (gets f).
Proof. intros w. reflexivity. Qed.

Lemma respects_getitem {A} key (o : option A) : respects R (getitem key o).
Proof. destruct o; [apply respects_ret | apply respects_raise]. Qed.

Lemma respects_modify f : (∀ w, R w (f w)) → respects R (modify f).
Proof. intros Hf w. apply Hf. Qed.

Lemma respects_bind {A B} (c : M A) (k : A → M B) :
  respects R c → (∀ a, respects R (k a)) → respects R (bind c k).
Proof.
  intros Hc Hk w. unfold bind. specialize (Hc w).
  destruct (c w) as [[a|e] w1]; simpl in *; [|done].
  etrans; [exact Hc | apply Hk].
Qed.

Lemma respects_try_except {A} (c : M A) (h : exn → M A) :
  respects R c → (∀ e, respects R (h e)) → respects R (try_except c h).
Proof.
  intros Hc Hh w. unfold try_except. specialize (Hc w).
  destruct (c w) as [[a|e] w1]; simpl in *; [done|].
  etrans; [exact Hc | apply Hh].
Qed.

Lemma respects_for_each {A} (l : list A) (body : A → M unit) :
  (∀ x, respects R (body x)) → respects R (for_each l body).
Proof.
  intros Hb. induction l as [|x l IH]; simpl.
  - apply respects_ret.
  - apply respects_bind; [apply Hb | intros _; apply IH].
Qed.

Lemma respects_for_each_enumerate {A} (l : list A) (body : nat → A → M unit) n :
  (∀ i x, respects R (body i x)) → respects R (for_each_enumerate n l body).
Proof.
  intros Hb. revert n. induction l as [|x l IH]; intros n; simpl.
  - apply respects_ret.
  - apply respects_bind; [apply Hb | intros _; apply IH].
Qed.

Lemma respects_fold_m {A T} (l : list A) (body : A → T → M T) (acc : T) :
  (∀ x t, respects R (body x t)) → respects R (fold_m l body acc).
Proof.
  intros Hb. revert acc. induction l as [|x l IH]; intros acc; simpl.
  - apply respects_ret.
  - apply respects_bind; [apply Hb | intros t; apply IH].
Qed.

(** The result of a run is related to its start. *)
Lemma respects_run {A} (c : M A) w r w' :
  respects R c → c w = (r, w') → R w w'.
Proof. intros Hc E. specialize (Hc w). by rewrite E in Hc. Qed.

End Respects.

#[global] Instance unchanged_preorder {A} (f : world → A) : PreOrder (unchanged f).
Proof.
  split.
  - intros w. reflexivity.
  - intros w1 w2 w3 H12 H23. unfold unchanged in *. congruence.
Qed.

#[global] Instance grows_preorder {A} (f : world → list A) : PreOrder (grows f).
Proof.
  split.
  - intros w. exists []. by rewrite app_nil_r.
  - intros w1 w2 w3 [l1 H12] [l2 H23]. exists (l1 ++ l2).
    by rewrite H23, H12, app_assoc.
Qed.

(** Steps through a computation, one combinator at a time. *)
Ltac respects_step :=
  match goal with
  | |- respects _ (bind _ _) => apply respects_bind; [apply _ | | intros ?]
  | |- respects _ (try_except _ _) => apply respects_try_except; [apply _ | | intros ?]
  | |- respects _ (ret _) => apply respects_ret; apply _
  | |- respects _ (raise _) => apply respects_raise; apply _
  | |- respects _ (lift _) => apply respects_lift; apply _
  | |- respects _ (gets _) => apply respects_gets; apply _
  | |- respects _ (getitem _ _) => apply respects_getitem; apply _
  | |- respects _ (for_each _ _) => apply respects_for_each; [apply _ | intros ?]
  | |- respects _ (for_each_enumerate _ _ _) =>
    apply respects_for_each_enumerate; [apply _ | intros ? ?]
  | |- respects _ (fold_m _ _ _) => apply respects_fold_m; [apply _ | intros ? ?]
  | |- respects _ (if ?b then _ else _) => destruct b
  | |- respects _ (match ?o with Some _ => _ | None => _ end) => destruct o
  | |- respects _ (match ?o with JObject _ => _ | JOther _ => _ end) => destruct o
  | |- respects _ (let '(_, _) := ?p in _) => destruct p
  | |- respects _ (let _ := _ in _) => cbv zeta
  | |- respects _ (match ?x with _ => _ end) => destruct x
  end.

(** The primitive steps, for the relations [unchanged] and [grows]. *)
Ltac respects_leaf :=
  intros ?w;
  cbv [unchanged grows print sleep now http_request append_line open_w f_write logger
       modify response_json as_object ret raise];
  repeat match goal with
         | |- context [match ?x with _ => _ end] => destruct x
         end;
  simpl;
  first [ reflexivity | by (exists []; rewrite app_nil_r) | by eexists ].

Ltac frame := repeat respects_step; try respects_leaf.

(** Steps through a computation that always returns. *)
Ltac returns_step :=
  match goal with
  | |- always_returns (bind _ _) => apply returns_bind; [ | intros ?]
  | |- always_returns (try_except _ _) => apply returns_try_except; intros ?
  | |- always_returns (ret _) => apply returns_ret
  | |- always_returns (modify _) => apply returns_modify
  | |- always_returns (print _) => apply returns_modify
  | |- always_returns (sleep _) => apply returns_modify
  | |- always_returns (open_w _) => apply returns_modify
  | |- always_returns (f_write _ _) => apply returns_modify
  | |- always_returns (logger _ _) => apply returns_modify
  | |- always_returns (append_line _ _) => apply returns_modify
  | |- always_returns (gets _) => apply returns_gets
  | |- always_returns now => apply returns_now
  | |- always_returns (for_each _ _) => apply returns_for_each; intros ?
  | |- always_returns (for_each_enumerate _ _ _) => apply returns_for_each_enumerate; intros ? ?
  | |- always_returns (fold_m _ _ _) => apply returns_fold_m; intros ? ?
  | |- always_returns (if ?b then _ else _) => destruct b
  | |- always_returns (match ?o with Some _ => _ | None => _ end) => destruct o
  | |- always_returns (let '(_, _) := ?p in _) => destruct p
  | |- always_returns (let _ := _ in _) => cbv zeta
  | |- always_returns (match ?x with _ => _ end) => destruct x
  end.
Ltac totality := repeat returns_step.


Lemma bind_run {A B} (c : M A) (k : A → M B) w a w' :
  c w = (Ok a, w') → bind c k w = k a w'.
Proof. intros E. unfold bind. by rewrite E. Qed.


(** Unfolding of the client's operations and of the file writers. *)
Ltac unfold_client :=
  unfold WhopIntegration.create_product, WhopIntegration.update_product_pricing,
    WhopIntegration.get_product_analytics, WhopIntegration.list_products,
    WhopIntegration._log_action.

Ltac unfold_files :=
  unfold BatchUploader._create_digital_files, BatchUploader._create_ebook_files,
    BatchUploader._create_notion_template_files, BatchUploader._create_planner_files,
    BatchUploader._create_email_template_files.

(* ===================================================================== *)
(** * Floating-point arithmetic                                            *)
(* ===================================================================== *)

(** The integer-valued facts about binary64 arithmetic that the pricing
    rule relies on: converting an integer below [2^53] is exact, a product
    is the exact product shifted and rounded to nearest, a quotient is the
    truncated quotient or the next mantissa. *)

Section PyFloatFacts.
Import PyFloat.


(** [iter_pos] is iteration. *)
Lemma iter_pos_nat {A} (f : A → A) (p : positive) (x : A) :
  SpecFloat.iter_pos f p x = Nat.iter (Pos.to_nat p) f x.
Proof.
  revert x. induction p as [p IH|p IH|]; intros x; cbn [SpecFloat.iter_pos].
  - rewrite !IH, Pos2Nat.inj_xI.
    replace (S (2 * Pos.to_nat p)) with (Pos.to_nat p + S (Pos.to_nat p))%nat by lia.
    by rewrite Nat.iter_add, Nat.iter_succ_r.
  - rewrite !IH, Pos2Nat.inj_xO.
    replace (2 * Pos.to_nat p)%nat with (Pos.to_nat p + Pos.to_nat p)%nat by lia.
    by rewrite Nat.iter_add.
  - done.
Qed.

(** One step of the shift register, on a non-negative mantissa. *)
Lemma shr_1_nonneg (m : Z) (r s : bool) :
  0 ≤ m →
  shr_1 {| shr_m := m; shr_r := r; shr_s := s |}
  = {| shr_m := m / 2; shr_r := (m mod 2 =? 1); shr_s := r || s |}.
Proof.
  intros Hm. rewrite <- Zodd_mod. destruct m as [|p|p]; [done| |lia].
  destruct p as [p|p|]; simpl; try done.
  - f_equal. rewrite Pos2Z.inj_xI. symmetry.
    rewrite (Z.mul_comm 2), Z.div_add_l by lia. done.
  - f_equal. rewrite Pos2Z.inj_xO. symmetry.
    rewrite (Z.mul_comm 2), Z.div_mul by lia. done.
Qed.

(** [k + 1] steps of the shift register, from an exact mantissa: the
    quotient, the round bit and the sticky bit. *)
Lemma shr_iter (m : Z) (k : nat) :
  0 ≤ m →
  Nat.iter (S k) shr_1 {| shr_m := m; shr_r := false; shr_s := false |}
  = {| shr_m := m / (2 ^ Z.of_nat k * 2);
       shr_r := ((m / 2 ^ Z.of_nat k) mod 2 =? 1);
       shr_s := negb (m mod 2 ^ Z.of_nat k =? 0) |}.
Proof.
  intros Hm. induction k as [|k IH].
  - unfold Nat.iter. cbn [nat_rect]. rewrite shr_1_nonneg by done.
    change (2 ^ Z.of_nat 0) with 1.
    by rewrite Z.div_1_r, Z.mod_1_r, Z.mul_1_l.
  - rewrite Nat.iter_succ, IH.
    assert (0 < 2 ^ Z.of_nat k) by (apply Z.pow_pos_nonneg; lia).
    assert (2 ^ Z.of_nat (S k) = 2 ^ Z.of_nat k * 2) as ->
      by (rewrite (Nat2Z.inj_succ k), Z.pow_succ_r; lia).
    rewrite shr_1_nonneg by (apply Z.div_pos; lia).
    f_equal.
    + by rewrite Z.div_div by lia.
    + rewrite (Z.rem_mul_r m) by lia. clear IH.
      pose proof (Z.mod_pos_bound m (2 ^ Z.of_nat k)).
      pose proof (Z.mod_pos_bound (m / 2 ^ Z.of_nat k) 2).
      generalize dependent (m mod 2 ^ Z.of_nat k).
      generalize dependent ((m / 2 ^ Z.of_nat k) mod 2).
      intros b Hb a Ha.
      destruct (Z.eqb_spec b 1), (Z.eqb_spec a 0),
        (Z.eqb_spec (a + 2 ^ Z.of_nat k * b) 0); simpl; try done; nia.
Qed.

(** The number of binary digits. *)
Lemma digits2_pos_bounds (p : positive) :
  2 ^ (Zpos (digits2_pos p) - 1) ≤ Zpos p < 2 ^ Zpos (digits2_pos p).
Proof.
  induction p as [p IH|p IH|]; cbn [digits2_pos]; [| |done].
  - rewrite Pos2Z.inj_succ. change (Zpos p~1) with (2 * Zpos p + 1).
    replace (Z.succ (Zpos (digits2_pos p)) - 1) with (Z.succ (Zpos (digits2_pos p) - 1)) by lia.
    rewrite !Z.pow_succ_r by lia. lia.
  - rewrite Pos2Z.inj_succ. change (Zpos p~0) with (2 * Zpos p).
    replace (Z.succ (Zpos (digits2_pos p)) - 1) with (Z.succ (Zpos (digits2_pos p) - 1)) by lia.
    rewrite !Z.pow_succ_r by lia. lia.
Qed.

Lemma digits2_unique (m d : Z) :
  0 < d → 2 ^ (d - 1) ≤ m < 2 ^ d → Zdigits2 m = d.
Proof.
  intros Hd [Hlo Hhi].
  assert (0 < m) as Hm by (pose proof (Z.pow_pos_nonneg 2 (d - 1)); lia).
  destruct m as [|p|p]; try lia. cbn [Zdigits2].
  pose proof (digits2_pos_bounds p) as [Hlo' Hhi'].
  destruct (Z.lt_trichotomy (Zpos (digits2_pos p)) d) as [H|[H|H]]; [|done|].
  - assert (2 ^ Zpos (digits2_pos p) ≤ 2 ^ (d - 1)) by (apply Z.pow_le_mono_r; lia). lia.
  - assert (2 ^ d ≤ 2 ^ (Zpos (digits2_pos p) - 1)) by (apply Z.pow_le_mono_r; lia). lia.
Qed.

(** A right shift by [n] bits of an exact mantissa, and the rounding to
    nearest that follows: the quotient or its successor, decided by the
    remainder when it is not a tie. *)
Lemma shr_round (m e : Z) (n : positive) :
  0 ≤ m →
  ∃ mrs,
    shr {| shr_m := m; shr_r := false; shr_s := false |} e (Zpos n)
    = (mrs, e + Zpos n) ∧
    let m1 := round_nearest_even (shr_m mrs) (loc_of_shr_record mrs) in
    (m1 = m / 2 ^ Zpos n ∨ m1 = m / 2 ^ Zpos n + 1) ∧
    (2 * (m mod 2 ^ Zpos n) < 2 ^ Zpos n → m1 = m / 2 ^ Zpos n) ∧
    (2 ^ Zpos n < 2 * (m mod 2 ^ Zpos n) → m1 = m / 2 ^ Zpos n + 1).
Proof.
  intros Hm. unfold shr. rewrite iter_pos_nat.
  destruct (Pos2Nat.is_succ n) as [k Hk]. rewrite Hk.
  rewrite shr_iter by done. eexists. split; [reflexivity|].
  assert (Zpos n = Z.succ (Z.of_nat k)) as -> by lia.
  rewrite Z.pow_succ_r by lia. rewrite (Z.mul_comm 2).
  assert (0 < 2 ^ Z.of_nat k) by (apply Z.pow_pos_nonneg; lia).
  rewrite (Z.rem_mul_r m) by lia. cbn [shr_m shr_r shr_s].
  pose proof (Z.mod_pos_bound m (2 ^ Z.of_nat k)).
  pose proof (Z.mod_pos_bound (m / 2 ^ Z.of_nat k) 2).
  generalize dependent (m mod 2 ^ Z.of_nat k).
  generalize dependent ((m / 2 ^ Z.of_nat k) mod 2).
  intros b Hb a Ha.
  destruct (Z.eqb_spec b 1), (Z.eqb_spec a 0); cbn [negb loc_of_shr_record round_nearest_even].
  - destruct (Z.even _); (split; [auto|]); split; intros; nia.
  - (split; [auto|]); split; intros; nia.
  - (split; [auto|]); split; intros; nia.
  - (split; [auto|]); split; intros; nia.
Qed.

(** Rounding of an exact positive mantissa of [53 + n] bits, in the range
    of the normal numbers: the result has the mantissa rounded to nearest
    (or [2 ^ 52] and one more in the exponent, when rounding carries). *)
Lemma round_aux_exact (mx ex : Z) (n : positive) :
  2 ^ (52 + Zpos n) ≤ mx < 2 ^ (53 + Zpos n) →
  -1074 ≤ ex + Zpos n → ex + Zpos n < 971 →
  ∃ m1,
    (m1 = mx / 2 ^ Zpos n ∨ m1 = mx / 2 ^ Zpos n + 1) ∧
    (2 * (mx mod 2 ^ Zpos n) < 2 ^ Zpos n → m1 = mx / 2 ^ Zpos n) ∧
    (2 ^ Zpos n < 2 * (mx mod 2 ^ Zpos n) → m1 = mx / 2 ^ Zpos n + 1) ∧
    2 ^ 52 ≤ m1 ≤ 2 ^ 53 ∧
    binary_round_aux prec emax false mx ex loc_Exact
    = if m1 <? 2 ^ 53 then S754_finite false (Z.to_pos m1) (ex + Zpos n)
      else S754_finite false (Z.to_pos (2 ^ 52)) (ex + Zpos n + 1).
Proof.
  intros Hmx Hlo Hhi.
  assert (0 < 2 ^ Zpos n) as Hn by (apply Z.pow_pos_nonneg; lia).
  assert (2 ^ (52 + Zpos n) = 2 ^ 52 * 2 ^ Zpos n) as E52 by (apply Z.pow_add_r; lia).
  assert (2 ^ (53 + Zpos n) = 2 ^ 53 * 2 ^ Zpos n) as E53 by (apply Z.pow_add_r; lia).
  assert (Zdigits2 mx = 53 + Zpos n) as Hd.
  { apply digits2_unique; [lia|]. by replace (53 + Zpos n - 1) with (52 + Zpos n) by lia. }
  assert (2 ^ 52 ≤ mx / 2 ^ Zpos n < 2 ^ 53) as Hq.
  { split; [apply Z.div_le_lower_bound; lia | apply Z.div_lt_upper_bound; lia]. }
  unfold binary_round_aux, shr_fexp. rewrite Hd. unfold fexp, emin, prec, emax.
  replace (Z.max (53 + Zpos n + ex - 53) (3 - 1024 - 53) - ex) with (Zpos n) by lia.
  cbn [shr_record_of_loc].
  destruct (shr_round mx ex n) as (mrs & Eshr & Hm1 & Hdown & Hup); [lia|].
  rewrite Eshr.
  set (m1 := round_nearest_even (shr_m mrs) (loc_of_shr_record mrs)) in *.
  exists m1. split; [exact Hm1|]. split; [exact Hdown|]. split; [exact Hup|].
  split; [lia|].
  destruct (Z.ltb_spec m1 (2 ^ 53)) as [Hlt|Hge].
  - assert (Zdigits2 m1 = 53) as -> by (apply digits2_unique; lia).
    replace (Z.max (53 + (ex + Zpos n) - 53) (3 - 1024 - 53) - (ex + Zpos n)) with 0 by lia.
    cbn [shr shr_m shr_record_of_loc].
    destruct m1 as [|p|p]; try lia.
    rewrite (proj2 (Z.leb_le _ _)) by lia. done.
  - assert (m1 = 2 ^ 53) as -> by lia.
    change (Zdigits2 (2 ^ 53)) with 54.
    replace (Z.max (54 + (ex + Zpos n) - 53) (3 - 1024 - 53) - (ex + Zpos n)) with 1 by lia.
    cbn [shr shr_m shr_record_of_loc iter_pos SpecFloat.iter_pos]. 
    change (shr_m (shr_1 _)) with (2 ^ 52). change (2 ^ 52) with (Zpos (Z.to_pos (2 ^ 52))).
    cbv iota. rewrite (proj2 (Z.leb_le _ _)) by lia. done.
Qed.

Lemma round_aux_53 (s : bool) (m e : Z) :
  2 ^ 52 ≤ m < 2 ^ 53 → -1074 ≤ e ≤ 971 →
  binary_round_aux prec emax s m e loc_Exact = S754_finite s (Z.to_pos m) e.
Proof.
  intros Hm He. unfold binary_round_aux, shr_fexp.
  assert (Zdigits2 m = 53) as Hd by (apply digits2_unique; lia).
  rewrite Hd. unfold fexp, emin, prec, emax.
  replace (Z.max (53 + e - 53) (3 - 1024 - 53) - e) with 0 by lia.
  cbn [shr shr_record_of_loc shr_m loc_of_shr_record round_nearest_even].
  rewrite Hd. replace (Z.max (53 + e - 53) (3 - 1024 - 53) - e) with 0 by lia.
  cbn [shr shr_record_of_loc shr_m].
  destruct m as [|p|p]; try lia.
  rewrite (proj2 (Z.leb_le _ _)) by lia. done.
Qed.

Lemma pos_iter_xO (p k : positive) : Zpos (Pos.iter xO p k) = Zpos p * 2 ^ Zpos k.
Proof.
  induction k as [|k IH] using Pos.peano_ind.
  - simpl. lia.
  - rewrite Pos.iter_succ, Pos2Z.inj_succ, Z.pow_succ_r by lia.
    change (Zpos (Pos.iter xO p k)~0) with (2 * Zpos (Pos.iter xO p k)). rewrite IH. lia.
Qed.

(** [float(p)] is exact below [2 ^ 53]: the mantissa is [p], aligned to
    53 bits. *)
Lemma of_int_exact (p d : Z) :
  0 < d ≤ 53 → 2 ^ (d - 1) ≤ p < 2 ^ d →
  of_int p = Ok (S754_finite false (Z.to_pos (p * 2 ^ (53 - d))) (d - 53)) ∧
  2 ^ 52 ≤ p * 2 ^ (53 - d) < 2 ^ 53.
Proof.
  intros Hd Hp.
  assert (0 < p) by (pose proof (Z.pow_pos_nonneg 2 (d - 1)); lia).
  assert (2 ^ 52 ≤ p * 2 ^ (53 - d) < 2 ^ 53) as Hm.
  { assert (2 ^ 52 = 2 ^ (d - 1) * 2 ^ (53 - d)) as ->
      by (rewrite <- Z.pow_add_r by lia; f_equal; lia).
    assert (2 ^ 53 = 2 ^ d * 2 ^ (53 - d)) as ->
      by (rewrite <- Z.pow_add_r by lia; f_equal; lia).
    assert (0 < 2 ^ (53 - d)) by (apply Z.pow_pos_nonneg; lia). nia. }
  split; [|exact Hm].
  destruct p as [|p|p]; try lia.
  unfold of_int, binary_normalize, binary_round.
  pose proof (digits2_unique (Zpos p) d) as Hdig. cbn [Zdigits2] in Hdig.
  rewrite Hdig by lia. unfold fexp, emin, prec, emax, shl_align.
  replace (Z.max (d + 0 - 53) (3 - 1024 - 53)) with (d - 53) by lia.
  destruct (d - 53 - 0) as [|k|k] eqn:Ek; try lia.
  - assert (d = 53) as -> by lia. change (2 ^ (53 - 53)) with 1 in *.
    rewrite Z.mul_1_r in *.
    pose proof (round_aux_53 false (Zpos p) 0) as Hr. unfold prec, emax in Hr.
    rewrite Hr by lia. done.
  - assert (Zpos k = 53 - d) as Hk by lia.
    pose proof (pos_iter_xO p k) as Hit. rewrite Hk in Hit.
    pose proof (round_aux_53 false (Zpos (Pos.iter xO p k)) (d - 53)) as Hr.
    unfold prec, emax in Hr. rewrite Hr by (rewrite ?Hit; lia).
    by rewrite Hit.
Qed.

(** The product of two positive normal floats, truncated to an integer:
    the product of the mantissas is shifted right by [n] bits ([52] or
    [53]) and rounded to nearest, then truncated. *)
Lemma mul_to_int (mp my ex ey : Z) :
  2 ^ 52 ≤ mp < 2 ^ 53 → 2 ^ 52 ≤ my < 2 ^ 53 →
  -1000 ≤ ex + ey → ex + ey + 53 < 0 →
  ∃ n m1,
    (n = 52 ∨ n = 53) ∧
    (m1 = (mp * my) / 2 ^ n ∨ m1 = (mp * my) / 2 ^ n + 1) ∧
    (2 ^ n < 2 * ((mp * my) mod 2 ^ n) → m1 = (mp * my) / 2 ^ n + 1) ∧
    rbind (Ok (mul (S754_finite false (Z.to_pos mp) ex) (S754_finite false (Z.to_pos my) ey)))
          to_int
    = Ok (m1 / 2 ^ (- (ex + ey + n))).
Proof.
  intros Hmp Hmy Hlo Hhi.
  assert (Zpos (Z.to_pos mp * Z.to_pos my) = mp * my) as HP
    by (rewrite Pos2Z.inj_mul, !Z2Pos.id; lia).
  assert (2 ^ 104 ≤ mp * my < 2 ^ 106) as HPb.
  { change (2 ^ 104) with (2 ^ 52 * 2 ^ 52). change (2 ^ 106) with (2 ^ 53 * 2 ^ 53). nia. }
  cbn [rbind]. unfold mul, SFmul. cbn [xorb]. rewrite HP.
  assert (∃ n : positive, (Zpos n = 52 ∨ Zpos n = 53) ∧
            2 ^ (52 + Zpos n) ≤ mp * my < 2 ^ (53 + Zpos n)) as (n & Hn & Hb).
  { destruct (Z.lt_ge_cases (mp * my) (2 ^ 105)).
    - exists 52%positive. split; [by left|]. change (2 ^ (52 + 52)) with (2 ^ 104).
      change (2 ^ (53 + 52)) with (2 ^ 105). lia.
    - exists 53%positive. split; [by right|]. change (2 ^ (52 + 53)) with (2 ^ 105).
      change (2 ^ (53 + 53)) with (2 ^ 106). lia. }
  destruct (round_aux_exact (mp * my) (ex + ey) n Hb) as (m1 & Hm1 & _ & Hup & Hm1b & E);
    [lia|lia|].
  exists (Zpos n), m1. split; [exact Hn|]. split; [exact Hm1|]. split; [exact Hup|].
  rewrite E.
  assert (0 < - (ex + ey + Zpos n)) as Hk by lia.
  destruct (Z.ltb_spec m1 (2 ^ 53)) as [Hlt|Hge]; cbn [to_int].
  - destruct (ex + ey + Zpos n) as [|k|k] eqn:Ek; try lia.
    rewrite Z.shiftr_div_pow2 by lia. rewrite Z2Pos.id by lia. done.
  - assert (m1 = 2 ^ 53) as -> by lia.
    destruct (ex + ey + Zpos n + 1) as [|k|k] eqn:Ek; try lia.
    + assert (ex + ey + Zpos n = -1) as -> by lia. done.
    + rewrite Z.shiftr_div_pow2 by lia.
      assert (- (ex + ey + Zpos n) = Z.succ (Zpos k)) as -> by lia.
      rewrite Z.pow_succ_r by lia. change (2 ^ 53) with (2 * 2 ^ 52).
      rewrite Z.div_mul_cancel_l; [done| |lia].
      apply Z.pow_nonzero; lia.
Qed.

Lemma digits_of_positive (p : Z) (b : Z) :
  0 < p < 2 ^ b → 0 ≤ b →
  ∃ d, 0 < d ≤ b ∧ 2 ^ (d - 1) ≤ p < 2 ^ d.
Proof.
  intros Hp Hb. destruct p as [|q|q]; try lia.
  exists (Zpos (digits2_pos q)). pose proof (digits2_pos_bounds q) as Hd.
  split; [|exact Hd]. split; [lia|].
  destruct (Z.le_gt_cases (Zpos (digits2_pos q)) b) as [|Hgt]; [done|].
  assert (2 ^ b ≤ 2 ^ (Zpos (digits2_pos q) - 1)) by (apply Z.pow_le_mono_r; lia).
  lia.
Qed.

Lemma int_mul_0_8 (p : Z) :
  0 ≤ p < 2 ^ 49 →
  rbind (int_mul p lit_0_8) to_int = Ok (p * 8 / 10).
Proof.
  intros Hp. destruct (Z.eq_dec p 0) as [->|Hnz]; [done|].
  destruct (digits_of_positive p 49) as (d & Hd & Hpd); [lia|lia|].
  destruct (of_int_exact p d) as [E Hmp]; [lia|lia|].
  unfold int_mul. rewrite E. cbn [rbind].
  set (a := 2 ^ (53 - d)) in *.
  assert (16 ≤ a) as Ha.
  { change 16 with (2 ^ 4). apply Z.pow_le_mono_r; lia. }
  destruct (mul_to_int (p * a) 7205759403792794 (d - 53) (-53)) as (n & m1 & Hn & Hm1 & _ & R);
    [lia|lia|lia|lia|].
  cbn [rbind] in R. unfold lit_0_8.
  change (Z.to_pos 7205759403792794) with 7205759403792794%positive in R.
  rewrite R. f_equal.
  set (Q := p * 8 / 10).
  assert (5 * Q ≤ 4 * p < 5 * Q + 5) as HQ.
  { pose proof (Z.div_mod (p * 8) 10 ltac:(lia)). pose proof (Z.mod_pos_bound (p * 8) 10 ltac:(lia)).
    subst Q. lia. }
  assert (∃ c, (c = 1 ∨ c = 2) ∧ c * 2 ^ n = 2 ^ 53 ∧ 2 ^ (- (d - 53 + -53 + n)) = a * c)
    as (c & Hc & Hcn & Hk).
  { destruct Hn as [-> | ->].
    - exists 2. split; [by right|]. split; [done|].
      replace (- (d - 53 + -53 + 52)) with (53 - d + 1) by lia.
      rewrite Z.pow_add_r by lia. done.
    - exists 1. split; [by left|]. split; [done|].
      replace (- (d - 53 + -53 + 53)) with (53 - d) by lia. lia. }
  rewrite Hk.
  set (P := p * a * 7205759403792794) in *.
  assert (0 < 2 ^ n) as Hn0 by (destruct Hn as [-> | ->]; done).
  assert (2 ^ n ≤ 2 ^ 53) as Hn53 by (destruct Hn as [-> | ->]; done).
  assert (Q * a * c ≤ P / 2 ^ n) as Hlow.
  { apply Z.div_le_lower_bound; [done|].
    replace (2 ^ n * (Q * a * c)) with (a * (Q * (c * 2 ^ n))) by ring.
    rewrite Hcn. subst P.
    replace (p * a * 7205759403792794) with (a * (p * 7205759403792794)) by ring.
    apply Z.mul_le_mono_nonneg_l; lia. }
  assert (P / 2 ^ n + 1 < (Q + 1) * a * c) as Hup.
  { enough (P / 2 ^ n < (Q + 1) * a * c - 1) by lia.
    apply Z.div_lt_upper_bound; [done|].
    replace (2 ^ n * ((Q + 1) * a * c - 1)) with (a * ((Q + 1) * (c * 2 ^ n)) - 2 ^ n) by ring.
    rewrite Hcn. subst P.
    replace (p * a * 7205759403792794) with (a * (p * 7205759403792794)) by ring.
    assert (2 ^ 50 ≤ (Q + 1) * 2 ^ 53 - p * 7205759403792794) as HY by lia.
    assert (16 * 2 ^ 50 ≤ a * ((Q + 1) * 2 ^ 53 - p * 7205759403792794)) by nia.
    lia. }
  symmetry. apply (Z.div_unique _ _ _ (m1 - Q * (a * c))); [|ring].
  left. assert (0 < a * c) by (destruct Hc as [-> | ->]; lia).
  destruct Hm1 as [-> | ->]; nia.
Qed.

Lemma int_mul_1_2 (p : Z) :
  0 ≤ p < 2 ^ 49 →
  rbind (int_mul p lit_1_2) to_int = Ok (p * 12 / 10).
Proof.
  intros Hp. destruct (Z.eq_dec p 0) as [->|Hnz]; [done|].
  destruct (digits_of_positive p 49) as (d & Hd & Hpd); [lia|lia|].
  destruct (of_int_exact p d) as [E Hmp]; [lia|lia|].
  unfold int_mul. rewrite E. cbn [rbind].
  assert (2 ^ (53 - d) = 2 * 2 ^ (52 - d)) as Ea.
  { replace (53 - d) with (Z.succ (52 - d)) by lia. rewrite Z.pow_succ_r by lia. done. }
  set (a := 2 ^ (52 - d)) in *.
  assert (8 ≤ a) as Ha.
  { change 8 with (2 ^ 3). apply Z.pow_le_mono_r; lia. }
  rewrite Ea in *.
  destruct (mul_to_int (p * (2 * a)) 5404319552844595 (d - 53) (-52))
    as (n & m1 & Hn & Hm1 & Hround & R); [lia|lia|lia|lia|].
  cbn [rbind] in R. unfold lit_1_2.
  change (Z.to_pos 5404319552844595) with 5404319552844595%positive in R.
  rewrite R. f_equal.
  set (Q := p * 12 / 10).
  assert (5 * Q ≤ 6 * p < 5 * Q + 5) as HQ.
  { pose proof (Z.div_mod (p * 12) 10 ltac:(lia)). pose proof (Z.mod_pos_bound (p * 12) 10 ltac:(lia)).
    subst Q. lia. }
  assert (∃ c, (c = 1 ∨ c = 2) ∧ c * 2 ^ n = 2 ^ 53 ∧ 2 ^ (- (d - 53 + -52 + n)) = a * c)
    as (c & Hc & Hcn & Hk).
  { destruct Hn as [-> | ->].
    - exists 2. split; [by right|]. split; [done|].
      replace (- (d - 53 + -52 + 52)) with (52 - d + 1) by lia.
      rewrite Z.pow_add_r by lia. done.
    - exists 1. split; [by left|]. split; [done|].
      replace (- (d - 53 + -52 + 53)) with (52 - d) by lia. lia. }
  rewrite Hk.
  set (P := p * (2 * a) * 5404319552844595) in *.
  assert (0 < 2 ^ n) as Hn0 by (destruct Hn as [-> | ->]; done).
  assert (2 ^ 52 ≤ 2 ^ n ≤ 2 ^ 53) as Hn53 by (destruct Hn as [-> | ->]; done).
  assert (0 < a * c) as Hac by (destruct Hc as [-> | ->]; lia).
  destruct (Z.eq_dec (6 * p) (5 * Q)) as [Hexact|Hinexact].
  - (* p is a multiple of five: the product falls just below Q and rounds up *)
    set (u := Q - p).
    assert (p = 5 * u) as Hpu by lia. assert (Q = 6 * u) as HQu by lia.
    assert (0 < 2 * a * u ∧ 4 * (a * u) < 2 ^ 52) as [Hu1 Hu2] by nia.
    assert (P = (Q * (a * c) - 1) * 2 ^ n + (2 ^ n - 2 * a * u)) as HP.
    { replace ((Q * (a * c) - 1) * 2 ^ n + (2 ^ n - 2 * a * u))
        with (a * Q * (c * 2 ^ n) - 2 * a * u) by ring.
      rewrite Hcn. subst P. rewrite Hpu, HQu. change (2 ^ 53) with 9007199254740992. ring. }
    assert (P / 2 ^ n = Q * (a * c) - 1) as Hq.
    { symmetry. apply (Z.div_unique _ _ _ (2 ^ n - 2 * a * u)); [left; lia|]. rewrite HP. ring. }
    assert (P mod 2 ^ n = 2 ^ n - 2 * a * u) as Hr.
    { symmetry. apply (Z.mod_unique _ _ (Q * (a * c) - 1)); [left; lia|]. rewrite HP. ring. }
    rewrite Hround by (rewrite Hr; lia).
    rewrite Hq. replace (Q * (a * c) - 1 + 1) with (Q * (a * c)) by ring.
    apply Z.div_mul. lia.
  - assert (Q * a * c ≤ P / 2 ^ n) as Hlow.
    { apply Z.div_le_lower_bound; [done|].
      replace (2 ^ n * (Q * a * c)) with (a * (Q * (c * 2 ^ n))) by ring.
      rewrite Hcn. subst P.
      replace (p * (2 * a) * 5404319552844595) with (a * (2 * p * 5404319552844595)) by ring.
      apply Z.mul_le_mono_nonneg_l; lia. }
    assert (P / 2 ^ n + 1 < (Q + 1) * a * c) as Hup.
    { enough (P / 2 ^ n < (Q + 1) * a * c - 1) by lia.
      apply Z.div_lt_upper_bound; [done|].
      replace (2 ^ n * ((Q + 1) * a * c - 1)) with (a * ((Q + 1) * (c * 2 ^ n)) - 2 ^ n) by ring.
      rewrite Hcn. subst P.
      replace (p * (2 * a) * 5404319552844595) with (a * (2 * p * 5404319552844595)) by ring.
      assert (2 ^ 50 + 1 ≤ (Q + 1) * 2 ^ 53 - 2 * p * 5404319552844595) as HY by lia.
      assert (8 * (2 ^ 50 + 1) ≤ a * ((Q + 1) * 2 ^ 53 - 2 * p * 5404319552844595)) by nia.
      lia. }
    symmetry. apply (Z.div_unique _ _ _ (m1 - Q * (a * c))); [|ring].
    left. destruct Hm1 as [-> | ->]; nia.
Qed.

Lemma round_nearest_even_cases (m : Z) (l : location) :
  round_nearest_even m l = m ∨ round_nearest_even m l = m + 1.
Proof. destruct l as [|[]]; simpl; try destruct (Z.even m); auto. Qed.

Lemma shr_m_of_loc (m : Z) (l : location) : shr_m (shr_record_of_loc m l) = m.
Proof. by destruct l as [|[]]. Qed.

Lemma shr_m_shr_1_of_loc (m : Z) (l : location) :
  0 ≤ m → shr_m (shr_1 (shr_record_of_loc m l)) = m / 2.
Proof. intros Hm. destruct l as [|[]]; simpl shr_record_of_loc; by rewrite shr_1_nonneg. Qed.

(** Rounding a 53- or 54-bit mantissa with an arbitrary location: the
    result is normal, and its mantissa is the truncated one or the next. *)
Lemma round_aux_weak (q e : Z) (l : location) :
  2 ^ 52 ≤ q < 2 ^ 54 → -1074 ≤ e → e < 960 →
  ∃ m e2,
    binary_round_aux prec emax false q e l = S754_finite false (Z.to_pos m) e2 ∧
    2 ^ 52 ≤ m < 2 ^ 53 ∧ e ≤ e2 ≤ e + 2 ∧
    (m = q / 2 ^ (e2 - e) ∨ m = q / 2 ^ (e2 - e) + 1).
Proof.
  intros Hq Hlo Hhi.
  assert (∃ m1 e1, (e1 = e ∨ e1 = e + 1) ∧ 2 ^ 52 ≤ m1 ≤ 2 ^ 53 ∧
            q / 2 ^ (e1 - e) < 2 ^ 53 ∧
            (m1 = q / 2 ^ (e1 - e) ∨ m1 = q / 2 ^ (e1 - e) + 1) ∧
            binary_round_aux prec emax false q e l =
            let '(mrs, e2) := shr_fexp prec emax m1 e1 loc_Exact in
            match shr_m mrs with
            | 0 => S754_zero false
            | Zpos m => if e2 <=? emax - prec then S754_finite false m e2
                        else S754_infinity false
            | Zneg _ => S754_nan
            end) as (m1 & e1 & He1 & Hm1 & Hqlt & Hm1q & E).
  { unfold binary_round_aux, shr_fexp at 1.
    destruct (Z.lt_ge_cases q (2 ^ 53)) as [Hlt|Hge].
    - assert (Zdigits2 q = 53) as -> by (apply digits2_unique; lia).
      unfold fexp at 1, emin, prec at 1 2, emax at 1.
      replace (Z.max (53 + e - 53) (3 - 1024 - 53) - e) with 0 by lia.
      cbn [shr]. rewrite shr_m_of_loc.
      set (m1 := round_nearest_even q _).
      exists m1, e. split; [by left|].
      pose proof (round_nearest_even_cases q (loc_of_shr_record (shr_record_of_loc q l))) as Hc.
      fold m1 in Hc. rewrite Z.sub_diag, Z.pow_0_r, Z.div_1_r.
      split; [lia|]. split; [lia|]. split; [exact Hc|]. done.
    - assert (Zdigits2 q = 54) as -> by (apply digits2_unique; lia).
      unfold fexp at 1, emin, prec at 1 2, emax at 1.
      replace (Z.max (54 + e - 53) (3 - 1024 - 53) - e) with 1 by lia.
      cbn [shr SpecFloat.iter_pos]. rewrite shr_m_shr_1_of_loc by lia.
      set (m1 := round_nearest_even (q / 2) _).
      exists m1, (e + 1). split; [by right|].
      pose proof (round_nearest_even_cases (q / 2)
                    (loc_of_shr_record (shr_1 (shr_record_of_loc q l)))) as Hc.
      fold m1 in Hc. replace (e + 1 - e) with 1 by lia. rewrite Z.pow_1_r.
      assert (2 ^ 52 ≤ q / 2 < 2 ^ 53).
      { split; [apply Z.div_le_lower_bound; lia | apply Z.div_lt_upper_bound; lia]. }
      split; [lia|]. split; [lia|]. split; [exact Hc|]. done. }
  rewrite E. clear E. unfold shr_fexp.
  destruct (Z.ltb_spec m1 (2 ^ 53)) as [Hlt|Hge].
  - assert (Zdigits2 m1 = 53) as -> by (apply digits2_unique; lia).
    unfold fexp, emin, prec, emax.
    replace (Z.max (53 + e1 - 53) (3 - 1024 - 53) - e1) with 0 by lia.
    cbn [shr shr_m shr_record_of_loc].
    exists m1, e1. destruct m1 as [|p|p]; try lia.
    rewrite (proj2 (Z.leb_le _ _)) by lia.
    split; [done|]. split; [lia|]. split; [lia|]. exact Hm1q.
  - assert (m1 = 2 ^ 53) as -> by lia.
    change (Zdigits2 (2 ^ 53)) with 54.
    unfold fexp, emin, prec, emax.
    replace (Z.max (54 + e1 - 53) (3 - 1024 - 53) - e1) with 1 by lia.
    cbn [shr shr_m shr_record_of_loc iter_pos SpecFloat.iter_pos].
    change (shr_m (shr_1 _)) with (2 ^ 52). change (2 ^ 52) with (Zpos (Z.to_pos (2 ^ 52))) at 1.
    cbv iota. rewrite (proj2 (Z.leb_le _ _)) by lia.
    exists (2 ^ 52), (e1 + 1). split; [done|]. split; [lia|]. split; [lia|].
    right. replace (e1 + 1 - e) with (e1 - e + 1) by lia.
    rewrite Z.pow_add_r by lia. rewrite <- Z.div_div by (try apply Z.pow_pos_nonneg; lia).
    assert (q / 2 ^ (e1 - e) = 2 ^ 53 ∨ q / 2 ^ (e1 - e) = 2 ^ 53 - 1) as [Hc|Hc].
    { destruct Hm1q; [left; lia|right; lia]. }
    + lia.
    + rewrite Hc. done.
Qed.

(** The quotient of two integers below [2^52]: a normal float whose
    mantissa is the truncated quotient at its exponent, or the next one. *)
Lemma int_truediv_shape (u v : Z) :
  0 < u < 2 ^ 52 → 0 < v < 2 ^ 52 →
  ∃ m e,
    int_truediv u v = Ok (S754_finite false (Z.to_pos m) e) ∧
    2 ^ 52 ≤ m < 2 ^ 53 ∧ e ≤ 0 ∧
    (m = (u * 2 ^ (- e)) / v ∨ m = (u * 2 ^ (- e)) / v + 1).
Proof.
  intros Hu Hv.
  destruct (digits_of_positive u 52) as (d1 & Hd1 & Hud); [lia|lia|].
  destruct (digits_of_positive v 52) as (d2 & Hd2 & Hvd); [lia|lia|].
  destruct u as [|pu|pu]; try lia. destruct v as [|pv|pv]; try lia.
  unfold int_truediv. cbn [Z.ltb Z.compare Z.abs Z.to_pos].
  unfold SFdiv, SFdiv_core_binary. cbn [xorb].
  change (Z.to_pos (Z.abs (Zpos pu))) with pu. change (Z.to_pos (Z.abs (Zpos pv))) with pv.
  rewrite (digits2_unique (Zpos pu) d1), (digits2_unique (Zpos pv) d2) by lia.
  unfold fexp, emin, prec, emax.
  set (s := 53 + d2 - d1).
  replace (Z.min (Z.max (d1 + 0 - (d2 + 0) - 53) (3 - 1024 - 53)) (0 - 0)) with (- s) by lia.
  replace (0 - 0 - - s) with s by lia.
  assert (2 ≤ s ≤ 104) as Hs by lia.
  destruct s as [|ps|ps] eqn:Es; try lia. rewrite <- Es in *.
  rewrite Z.shiftl_mul_pow2 by lia.
  set (m' := Zpos pu * 2 ^ s).
  assert (Z.div_eucl m' (Zpos pv) = (m' / Zpos pv, m' mod Zpos pv)) as ->.
  { unfold Z.div, Z.modulo. by destruct (Z.div_eucl m' (Zpos pv)). }
  assert (0 < 2 ^ s) as Hs0 by (apply Z.pow_pos_nonneg; lia).
  assert (2 ^ (d1 - 1) * 2 ^ s = 2 ^ 52 * 2 ^ d2) as Elow.
  { rewrite <- !Z.pow_add_r by lia. f_equal. lia. }
  assert (2 ^ d1 * 2 ^ s = 2 ^ 54 * 2 ^ (d2 - 1)) as Ehigh.
  { rewrite <- !Z.pow_add_r by lia. f_equal. lia. }
  assert (2 ^ 52 ≤ m' / Zpos pv < 2 ^ 54) as Hq.
  { subst m'. split; [apply Z.div_le_lower_bound | apply Z.div_lt_upper_bound]; try lia; nia. }
  destruct (round_aux_weak (m' / Zpos pv) (- s) (new_location (Zpos pv) (m' mod Zpos pv)))
    as (m & e2 & E & Hm & He2 & Hmq); [lia|lia|lia|].
  change (binary_round_aux 53 1024) with (binary_round_aux prec emax). rewrite E.
  exists m, e2. split; [done|]. split; [lia|]. split; [lia|].
  assert (m' / Zpos pv / 2 ^ (e2 - - s) = Zpos pu * 2 ^ (- e2) / Zpos pv) as Eq.
  { assert (0 < 2 ^ (e2 - - s)) by (apply Z.pow_pos_nonneg; lia).
    rewrite Z.div_div by lia. subst m'.
    replace s with (- e2 + (e2 - - s)) at 1 by lia.
    rewrite Z.pow_add_r by lia. rewrite Z.mul_assoc.
    rewrite Z.div_mul_cancel_r by lia. done. }
  rewrite <- Eq. exact Hmq.
Qed.

(** The comparison of a quotient with the literal [0.1], on integers. *)
Lemma truediv_gt_0_1 (u v : Z) :
  0 < u < 2 ^ 52 → 0 < v < 2 ^ 52 →
  ∃ x, int_truediv u v = Ok x ∧ gt x lit_0_1 = (v <? 10 * u).
Proof.
  intros Hu Hv.
  destruct (int_truediv_shape u v Hu Hv) as (m & e & E & Hm & He & Hmq).
  eexists. split; [exact E|].
  unfold gt, lit_0_1, SFltb, SFcompare.
  set (q := u * 2 ^ (- e) / v) in *.
  assert (0 < 2 ^ (- e)) as Hp by (apply Z.pow_pos_nonneg; lia).
  assert (q * v ≤ u * 2 ^ (- e) < (q + 1) * v) as Hqv.
  { pose proof (Z.div_mod (u * 2 ^ (- e)) v ltac:(lia)).
    pose proof (Z.mod_pos_bound (u * 2 ^ (- e)) v ltac:(lia)). subst q. lia. }
  destruct (Z.compare_spec (-56) e) as [<- | Hlt | Hgt].
  - change (2 ^ (- -56)) with 72057594037927936 in *.
    rewrite Pos.compare_cont_spec. cbn [Pos.switch_Eq].
    destruct (Z.ltb_spec v (10 * u)) as [Hr|Hr].
    + assert (7205759403792794 < m) as Hgt by nia.
      assert (7205759403792794 < Z.to_pos m)%positive as ->%Pos.compare_lt_iff by lia.
      done.
    + assert (m ≤ 7205759403792794) as Hle by nia.
      destruct (Pos.compare_spec 7205759403792794 (Z.to_pos m)); try done. lia.
  - (* a larger exponent: the quotient is above one tenth *)
    destruct (Z.ltb_spec v (10 * u)) as [Hr|Hr]; [done|]. exfalso.
    assert (2 ^ (- e) ≤ 2 ^ 55) by (apply Z.pow_le_mono_r; lia).
    change (2 ^ 55) with 36028797018963968 in *. change (2 ^ 52) with 4503599627370496 in *.
    assert (10 * (q * v) ≤ 36028797018963968 * v) by nia.
    assert (10 * q ≤ 36028797018963968) by nia.
    lia.
  - destruct (Z.ltb_spec v (10 * u)) as [Hr|Hr]; [|done]. exfalso.
    assert (2 ^ 57 ≤ 2 ^ (- e)) by (apply Z.pow_le_mono_r; lia).
    change (2 ^ 57) with 144115188075855872 in *. change (2 ^ 53) with 9007199254740992 in *.
    assert (144115188075855872 * v < 10 * ((q + 1) * v)) by nia.
    assert (144115188075855872 < 10 * (q + 1)) by nia.
    lia.
Qed.

End PyFloatFacts.

(* ===================================================================== *)
(** * The marketplace client                                               *)
(* ===================================================================== *)

Section WhopIntegrationFacts.
Import WhopIntegration.

Lemma log_action_run action status data w :
  ∃ w', _log_action action status data w = (Ok tt, w') ∧
        api_logs w' = appended (log_file w) (log_line action status data w) (api_logs w).
Proof.
  unfold _log_action, bind, now, append_line, modify. simpl.
  eexists. split; [reflexivity|]. reflexivity.
Qed.


Lemma create_product_run d w :
  ∃ w', create_product d w = (Ok (created (http w (http_count w))), w') ∧
        http w' = http w ∧ http_count w' = S (http_count w) ∧
        sent w' = sent w ++ [PostProduct (_format_for_whop_api d)] ∧
        ∃ status data,
          api_logs w' = appended (log_file w) (log_line "create_product" status data w)
                          (api_logs w) ∧
          status = (if created (http w (http_count w)) is Some _
                    then "success" else "error").
Proof.
  unfold create_product, _log_action, created.
  unfold bind, try_except, ret, raise, print, modify, http_request, response_json,
    as_object, now, append_line. simpl.
  destruct (http w (http_count w)) as [|resp]; simpl.
  { eexists. split; [reflexivity|]. simpl. repeat split; eauto 10. }
  destruct (status_code resp =? 201); simpl.
  2:{ eexists. split; [reflexivity|]. simpl. repeat split; eauto 10. }
  destruct (body resp) as [[o|t]|]; simpl.
  all: eexists; (split; [reflexivity|]); simpl; repeat split; eauto 10.
Qed.

Lemma create_product_total d : always_returns (create_product d).
Proof. intros w. destruct (create_product_run d w) as (w' & E & _). eauto. Qed.

Lemma create_product_batch d : respects (unchanged batch) (create_product d).
Proof. unfold create_product, _log_action. frame. Qed.

Lemma create_product_dirs d : respects (unchanged dirs) (create_product d).
Proof. unfold create_product, _log_action. frame. Qed.

Lemma create_product_automation_log d :
  respects (unchanged automation_log) (create_product d).
Proof. unfold create_product, _log_action. frame. Qed.

Lemma create_product_generator d : respects (unchanged generator) (create_product d).
Proof. unfold create_product, _log_action. frame. Qed.










End WhopIntegrationFacts.

(* ===================================================================== *)
(** * Rendering of the deliverable files                                   *)
(* ===================================================================== *)

Section Rendering.
Import BatchUploader.

Lemma str_app_cons (x : Ascii.ascii) (a b : string) :
  String x a +:+ b = String x (a +:+ b).
Proof. reflexivity. Qed.

Lemma str_app_assoc (a b c : string) : (a +:+ b) +:+ c = a +:+ (b +:+ c).
Proof. induction a as [|x a IH]; [done|]. by rewrite !str_app_cons, IH. Qed.

Lemma str_app_nil_r (a : string) : a +:+ "" = a.
Proof. induction a as [|x a IH]; [done|]. by rewrite str_app_cons, IH. Qed.

Lemma str_join_app (l1 l2 : list string) :
  str_join (l1 ++ l2) = str_join l1 +:+ str_join l2.
Proof.
  induction l1 as [|s l1 IH]; [done|]. cbn [app str_join].
  by rewrite IH, str_app_assoc.
Qed.

Lemma comprehension_chapters {B} (f : nat → chapter → result B) (g : nat → string * string → B)
    (cs : list (string * string)) n :
  (∀ i tc, f i (chapter_of tc) = Ok (g i tc)) →
  comprehension n (chapter_of <$> cs) f = Ok (imap (λ i, g (n + i)%nat) cs).
Proof.
  intros Hf. revert n. induction cs as [|tc cs IH]; intros n; [done|].
  cbn [fmap list_fmap comprehension]. rewrite Hf, IH. cbn [imap].
  rewrite Nat.add_0_r. do 2 f_equal. apply imap_ext. intros i x _. cbn.
  f_equal. lia.
Qed.

Lemma for_enumerate_chapters (body : nat → chapter → string → result string)
    (g : nat → string * string → string) (cs : list (string * string)) n acc :
  (∀ i tc acc, body i (chapter_of tc) acc = Ok (acc +:+ g i tc)) →
  for_enumerate n (chapter_of <$> cs) body acc
    = Ok (acc +:+ str_join (imap (λ i, g (n + i)%nat) cs)).
Proof.
  intros Hb. revert n acc. induction cs as [|tc cs IH]; intros n acc.
  - cbn. by rewrite str_app_nil_r.
  - cbn [fmap list_fmap for_enumerate]. rewrite Hb, IH. cbn [imap str_join].
    rewrite Nat.add_0_r, str_app_assoc. do 4 f_equal.
    apply imap_ext. intros i x _. cbn. f_equal. lia.
Qed.

Lemma comprehension_is_ok {A B} (f : nat → A → result B) (ok : A → bool) l n :
  (∀ i x, is_ok (f i x) = ok x) →
  is_ok (comprehension n l f) = forallb ok l.
Proof.
  intros Hf. revert n. induction l as [|x l IH]; intros n; [done|].
  cbn [comprehension forallb]. rewrite <- Hf with (i := n), <- IH with (n := S n).
  destruct (f n x); [|done]. by destruct (comprehension (S n) l f).
Qed.

Lemma for_enumerate_is_ok {A T} (body : nat → A → T → result T) (ok : A → bool) l n acc :
  (∀ i x acc, is_ok (body i x acc) = ok x) →
  is_ok (for_enumerate n l body acc) = forallb ok l.
Proof.
  intros Hb. revert n acc. induction l as [|x l IH]; intros n acc; [done|].
  cbn [for_enumerate forallb]. rewrite <- Hb with (i := n) (acc := acc).
  destruct (body n x acc) as [acc'|]; [|done]. by rewrite IH.
Qed.

Lemma forallb_title_chapter_ok l :
  forallb (λ c, present (ch_title c)) l && forallb chapter_ok l = forallb chapter_ok l.
Proof.
  induction l as [|c l IH]; [done|]. cbn [forallb]. rewrite <- IH at 2.
  unfold chapter_ok. destruct (present (ch_title c)), (present (ch_content c)); simpl; try done.
  by rewrite andb_false_r.
Qed.

Lemma rbind_is_ok {A B} (r : result A) (k : A → result B) (b : bool) :
  (∀ a, is_ok (k a) = b) → is_ok (rbind r k) = is_ok r && b.
Proof. intros Hk. destruct r; simpl; [apply Hk | done]. Qed.

Lemma generate_ebook_html_is_ok d :
  is_ok (_generate_ebook_html d) = forallb chapter_ok (default [] (pd_chapters d)).
Proof.
  unfold _generate_ebook_html. cbv zeta.
  rewrite <- forallb_title_chapter_ok.
  erewrite rbind_is_ok.
  - f_equal. apply comprehension_is_ok. intros i x. by destruct (ch_title x).
  - intros toc. rewrite (rbind_is_ok _ _ true) by done. rewrite andb_true_r.
    apply comprehension_is_ok. intros i x. unfold chapter_ok.
    by destruct (ch_title x), (ch_content x).
Qed.

Lemma generate_ebook_text_is_ok d :
  is_ok (_generate_ebook_text d) = forallb chapter_ok (default [] (pd_chapters d)).
Proof.
  unfold _generate_ebook_text. cbv zeta.
  rewrite <- forallb_title_chapter_ok.
  erewrite rbind_is_ok.
  - f_equal. apply for_enumerate_is_ok. intros i x acc. by destruct (ch_title x).
  - intros text. rewrite (rbind_is_ok _ _ true) by done. rewrite andb_true_r.
    apply for_enumerate_is_ok. intros i x acc. unfold chapter_ok.
    by destruct (ch_title x), (ch_content x).
Qed.

Lemma generate_ebook_markdown_is_ok d :
  is_ok (_generate_ebook_markdown d) = forallb chapter_ok (default [] (pd_chapters d)).
Proof.
  unfold _generate_ebook_markdown. cbv zeta.
  rewrite <- forallb_title_chapter_ok.
  erewrite rbind_is_ok.
  - f_equal. apply for_enumerate_is_ok. intros i x acc. by destruct (ch_title x).
  - intros text. rewrite (rbind_is_ok _ _ true) by done. rewrite andb_true_r.
    apply for_enumerate_is_ok. intros i x acc. unfold chapter_ok.
    by destruct (ch_title x), (ch_content x).
Qed.

Lemma returns_is_ok {A} (c : M A) w : always_returns c → is_ok (c w).1 = true.
Proof. intros H. destruct (H w) as (a & w' & E). by rewrite E. Qed.

Lemma create_notion_total d id : always_returns (_create_notion_template_files d id).
Proof. unfold _create_notion_template_files. totality. Qed.

Lemma create_planner_total d id : always_returns (_create_planner_files d id).
Proof. unfold _create_planner_files. totality. Qed.

Lemma create_ebook_files_is_ok d id w :
  is_ok (_create_ebook_files d id w).1 = forallb chapter_ok (default [] (pd_chapters d)).
Proof.
  pose proof (generate_ebook_html_is_ok d) as H1.
  pose proof (generate_ebook_text_is_ok d) as H2.
  pose proof (generate_ebook_markdown_is_ok d) as H3.
  unfold _create_ebook_files, bind, lift, open_w, f_write, print, modify. cbv zeta.
  destruct (_generate_ebook_html d); simpl in *; [|done].
  destruct (_generate_ebook_text d); simpl in *; [|done].
  destruct (_generate_ebook_markdown d); simpl in *; done.
Qed.

Lemma for_each_enumerate_is_ok {A} (body : nat → A → M unit) (ok : A → bool) l n w :
  (∀ i x w, is_ok (body i x w).1 = ok x) →
  is_ok (for_each_enumerate n l body w).1 = forallb ok l.
Proof.
  intros Hb. revert n w. induction l as [|x l IH]; intros n w; [done|].
  cbn [for_each_enumerate forallb]. unfold bind.
  rewrite <- Hb with (i := n) (w := w).
  destruct (body n x w) as [[[]|e] w']; simpl; [apply IH | done].
Qed.

Lemma create_email_files_is_ok d id w :
  is_ok (_create_email_template_files d id w).1
  = forallb template_ok (default [] (pd_templates d)).
Proof.
  unfold _create_email_template_files. cbv zeta. unfold bind at 1.
  match goal with
  | |- context [for_each_enumerate ?n ?l ?b w] =>
    pose proof (for_each_enumerate_is_ok b template_ok l n w) as H;
    destruct (for_each_enumerate n l b w) as [[[]|e] w']
  end; simpl in *; rewrite <- H; try done;
  intros i x w0; unfold bind, getitem, open_w, f_write, modify, ret, raise, template_ok;
  by destruct (tp_type x), (tp_subject_line x), (tp_content x).
Qed.

Lemma create_digital_files_is_ok d id w :
  is_ok (_create_digital_files d id w).1 = renderable d.
Proof.
  unfold _create_digital_files, renderable. cbv zeta.
  repeat case_bool_decide; try congruence.
  - apply create_ebook_files_is_ok.
  - apply returns_is_ok, create_notion_total.
  - apply returns_is_ok, create_planner_total.
  - apply create_email_files_is_ok.
  - done.
Qed.

Lemma create_digital_files_batch d id : respects (unchanged batch) (_create_digital_files d id).
Proof. unfold_files. frame. Qed.
Lemma create_digital_files_http d id : respects (unchanged http) (_create_digital_files d id).
Proof. unfold_files. frame. Qed.
Lemma create_digital_files_http_count d id :
  respects (unchanged http_count) (_create_digital_files d id).
Proof. unfold_files. frame. Qed.

Ltac str_norm := rewrite ?str_app_assoc, ?str_app_nil_r.

Lemma generate_ebook_html_closed d cs :
  pd_chapters d = Some (chapter_of <$> cs) →
  _generate_ebook_html d
  = Ok (html_front (default "Untitled Ebook" (pd_title d)) (default "" (pd_subtitle d))
        +:+ str_join (imap html_toc_entry cs) +:+ html_toc_close
        +:+ str_join (imap html_chapter cs) +:+ html_footer).
Proof.
  intros Hcs. unfold _generate_ebook_html. rewrite Hcs. cbn [from_option id]. cbv zeta.
  rewrite (comprehension_chapters _ html_toc_entry).
  2:{ intros i tc. cbn. unfold html_toc_entry, chapter_heading. by str_norm. }
  cbn [rbind].
  rewrite (comprehension_chapters _ html_chapter).
  2:{ intros i tc. cbn. unfold html_chapter, chapter_heading. by str_norm. }
  cbn [rbind]. unfold html_front. by str_norm.
Qed.

Lemma generate_ebook_text_closed d cs :
  pd_chapters d = Some (chapter_of <$> cs) →
  _generate_ebook_text d
  = Ok (text_front (default "Untitled Ebook" (pd_title d)) (default "" (pd_subtitle d))
        +:+ str_join (imap text_toc_entry cs) +:+ (nl +:+ nl)
        +:+ str_join (imap text_chapter cs) +:+ text_back).
Proof.
  intros Hcs. unfold _generate_ebook_text. rewrite Hcs. cbn [from_option id]. cbv zeta.
  rewrite (for_enumerate_chapters _ text_toc_entry).
  2:{ intros i tc acc. cbn. unfold text_toc_entry, chapter_heading. by str_norm. }
  cbn [rbind].
  rewrite (for_enumerate_chapters _ text_chapter).
  2:{ intros i tc acc. cbn. unfold text_chapter, chapter_heading. by str_norm. }
  cbn [rbind]. unfold text_front, text_back, license_notice.
  destruct (str_truthy _); by str_norm.
Qed.

Lemma generate_ebook_markdown_closed d cs :
  pd_chapters d = Some (chapter_of <$> cs) →
  _generate_ebook_markdown d
  = Ok (md_front (default "Untitled Ebook" (pd_title d)) (default "" (pd_subtitle d))
        +:+ str_join (imap md_toc_entry cs) +:+ (nl +:+ "---" +:+ nl +:+ nl)
        +:+ str_join (imap md_chapter cs) +:+ md_back).
Proof.
  intros Hcs. unfold _generate_ebook_markdown. rewrite Hcs. cbn [from_option id]. cbv zeta.
  rewrite (for_enumerate_chapters _ md_toc_entry).
  2:{ intros i tc acc. cbn. unfold md_toc_entry. by str_norm. }
  cbn [rbind].
  rewrite (for_enumerate_chapters _ md_chapter).
  2:{ intros i tc acc. cbn. unfold md_chapter, chapter_heading. by str_norm. }
  cbn [rbind]. unfold md_front, md_back, license_notice.
  destruct (str_truthy _); by str_norm.
Qed.

Lemma contains_here (x b : string) : contains x (x +:+ b).
Proof. by exists "", b. Qed.

Lemma contains_app_r (x a b : string) : contains x b → contains x (a +:+ b).
Proof.
  intros (p & q & ->). exists (a +:+ p), q. by rewrite str_app_assoc.
Qed.

Lemma contains_app_l (x a b : string) : contains x a → contains x (a +:+ b).
Proof.
  intros (p & q & ->). exists p, (q +:+ b). by rewrite !str_app_assoc.
Qed.

Lemma str_truthy_nonempty (s : string) : s ≠ "" → str_truthy s = true.
Proof. by destruct s. Qed.

(** C7. For an ebook document whose [N] chapters [cs] all have a title
    and a content, each of the three renderings is: front matter with the
    title (and the subtitle, when there is one), a table of contents with
    one entry per chapter in the document's order, each entry with its
    chapter's title, then the [N] chapters in the same order, each with
    its heading [Chapter i: title] followed by its content, verbatim and
    once, then back matter with the license notice. *)
Theorem ebook_rendering_structure (d : product_data) (cs : list (string * string)) :
  pd_chapters d = Some (chapter_of <$> cs) →
  let T := default "Untitled Ebook" (pd_title d) in
  let S := default "" (pd_subtitle d) in
  (_generate_ebook_html d
   = Ok (html_front T S +:+ str_join (imap html_toc_entry cs) +:+ html_toc_close
         +:+ str_join (imap html_chapter cs) +:+ html_footer) ∧
   _generate_ebook_text d
   = Ok (text_front T S +:+ str_join (imap text_toc_entry cs) +:+ (nl +:+ nl)
         +:+ str_join (imap text_chapter cs) +:+ text_back) ∧
   _generate_ebook_markdown d
   = Ok (md_front T S +:+ str_join (imap md_toc_entry cs)
         +:+ (nl +:+ "---" +:+ nl +:+ nl)
         +:+ str_join (imap md_chapter cs) +:+ md_back)) ∧
  (contains T (html_front T S) ∧ contains T (text_front T S)
   ∧ contains T (md_front T S)) ∧
  (S ≠ "" → contains S (html_front T S) ∧ contains S (text_front T S)
            ∧ contains S (md_front T S)) ∧
  (length (imap html_toc_entry cs) = length cs
   ∧ length (imap html_chapter cs) = length cs
   ∧ length (imap text_toc_entry cs) = length cs
   ∧ length (imap text_chapter cs) = length cs
   ∧ length (imap md_toc_entry cs) = length cs
   ∧ length (imap md_chapter cs) = length cs) ∧
  (∀ i, imap html_toc_entry cs !! i = html_toc_entry i <$> cs !! i
        ∧ imap html_chapter cs !! i = html_chapter i <$> cs !! i
        ∧ imap text_toc_entry cs !! i = text_toc_entry i <$> cs !! i
        ∧ imap text_chapter cs !! i = text_chapter i <$> cs !! i
        ∧ imap md_toc_entry cs !! i = md_toc_entry i <$> cs !! i
        ∧ imap md_chapter cs !! i = md_chapter i <$> cs !! i) ∧
  (∀ i tc, contains tc.1 (html_toc_entry i tc) ∧ contains tc.1 (text_toc_entry i tc)
           ∧ contains tc.1 (md_toc_entry i tc)) ∧
  (∀ i tc,
      (∃ a b c, html_chapter i tc = a +:+ chapter_heading i tc.1 +:+ b +:+ tc.2 +:+ c) ∧
      (∃ a b c, text_chapter i tc = a +:+ chapter_heading i tc.1 +:+ b +:+ tc.2 +:+ c) ∧
      (∃ a b c, md_chapter i tc = a +:+ chapter_heading i tc.1 +:+ b +:+ tc.2 +:+ c)) ∧
  (contains license_notice html_footer ∧ contains license_notice text_back
   ∧ contains license_notice md_back).
Proof.
  intros Hcs T S.
  split.
  { split; [by apply generate_ebook_html_closed|].
    split; [by apply generate_ebook_text_closed|].
    by apply generate_ebook_markdown_closed. }
  split.
  { split; [|split].
    - unfold html_front. apply contains_app_r, contains_here.
    - unfold text_front. apply contains_here.
    - unfold md_front. apply contains_app_r, contains_here. }
  split.
  { intros HS. apply str_truthy_nonempty in HS.
    unfold html_front, text_front, md_front. rewrite HS.
    split; [|split].
    - do 5 apply contains_app_r. apply contains_app_l.
      do 5 apply contains_app_r. apply contains_here.
    - do 5 apply contains_app_r. apply contains_app_l, contains_here.
    - do 4 apply contains_app_r. apply contains_app_l.
      apply contains_app_r, contains_here. }
  split.
  { by rewrite !length_imap. }
  split.
  { intros i. by rewrite !list_lookup_imap. }
  split.
  { intros i tc. unfold html_toc_entry, text_toc_entry, md_toc_entry, chapter_heading.
    split; [|split].
    - apply contains_app_r, contains_app_l. do 3 apply contains_app_r.
      exists "", "". by rewrite str_app_nil_r.
    - apply contains_app_l. do 3 apply contains_app_r.
      exists "", "". by rewrite str_app_nil_r.
    - do 2 apply contains_app_r. apply contains_here. }
  split.
  { intros i tc. unfold html_chapter, text_chapter, md_chapter.
    split; [|split].
    - exists ("<div class=" +:+ dq +:+ "chapter" +:+ dq +:+ "><h2>"),
        "</h2><div>", "</div></div>".
      by rewrite !str_app_assoc.
    - exists "", (nl +:+ str_repeat "-" (py_len tc.1 + 12) +:+ nl +:+ nl), (nl +:+ nl).
      by rewrite !str_app_assoc.
    - exists "## ", (nl +:+ nl), (nl +:+ nl). by rewrite !str_app_assoc. }
  split; [|split].
  - exists (nl +:+ "    " +:+ nl +:+ "    <div class=" +:+ dq +:+ "footer" +:+ dq +:+ ">"
            +:+ nl +:+ "        <p>").
    exists (" You may edit, rebrand, and resell this content.</p>" +:+ nl
            +:+ "        <p>Generated by Nosyt Automation System</p>" +:+ nl
            +:+ "    </div>" +:+ nl +:+ "</body>" +:+ nl +:+ "</html>" +:+ nl
            +:+ "        ").
    reflexivity.
  - unfold text_back. do 3 apply contains_app_r. apply contains_here.
  - unfold md_back. do 4 apply contains_app_r. apply contains_here.
Qed.

Lemma ebook_rendering_structure_witness :
  pd_chapters scenario_ebook = Some (chapter_of <$> [("A", "x"); ("B", "y")]) ∧
  _generate_ebook_text scenario_ebook
  = Ok (text_front "T" "" +:+ str_join (imap text_toc_entry [("A", "x"); ("B", "y")])
        +:+ (nl +:+ nl)
        +:+ str_join (imap text_chapter [("A", "x"); ("B", "y")]) +:+ text_back).
Proof.
  split; [reflexivity|].
  exact (proj1 (proj2 (proj1
           (ebook_rendering_structure scenario_ebook [("A", "x"); ("B", "y")]
              eq_refl)))).
Defined.

(** The scenario of the specification: the rendered files of the ebook
    with chapters A and B have the heading of chapter 1 before that of
    chapter 2. *)
Example scenario_ebook_headings :
  ∃ a b c e f g,
    _generate_ebook_html scenario_ebook
    = Ok (a +:+ "<h2>Chapter 1: A</h2>" +:+ b +:+ "<h2>Chapter 2: B</h2>" +:+ c) ∧
    _generate_ebook_text scenario_ebook
    = Ok (e +:+ "Chapter 1: A" +:+ f +:+ "Chapter 2: B" +:+ g).
Proof.
  exists (html_front "T" "" +:+ str_join (imap html_toc_entry [("A", "x"); ("B", "y")])
          +:+ html_toc_close +:+ "<div class=" +:+ dq +:+ "chapter" +:+ dq +:+ ">"),
    ("<div>x</div></div><div class=" +:+ dq +:+ "chapter" +:+ dq +:+ ">"),
    ("<div>y</div></div>" +:+ html_footer),
    ("T" +:+ nl +:+ "=" +:+ nl +:+ nl +:+ "TABLE OF CONTENTS" +:+ nl
     +:+ "-----------------" +:+ nl),
    nl,
    (nl +:+ (nl +:+ nl) +:+ str_join (imap text_chapter [("A", "x"); ("B", "y")])
     +:+ text_back).
  split; vm_compute; reflexivity.
Qed.

End Rendering.

(* ===================================================================== *)
(** * The batch uploader                                                   *)
(* ===================================================================== *)

Section BatchUploaderFacts.
Import BatchUploader.

Lemma upload_one_run name f w :
  ∃ w', upload_one (name, f) w = (Ok tt, w') ∧
        http w' = http w ∧
        http_count w' = (http_count w + requests_of f)%nat ∧
        batch w' = after_one (http w (http_count w)) f (batch w).
Proof.
  unfold upload_one, try_except. cbn [fst snd].
  destruct f as [e|d]; cbn [json_load].
  - unfold bind at 1. unfold raise, print, modify, bind. eexists. split; [reflexivity|].
    simpl. split; [done|]. split; [lia|done].
  - unfold bind at 1. unfold ret at 1.
    destruct (create_product_run d w) as (w1 & E & Hh & Hc & _).
    pose proof (respects_run _ _ _ _ _ (create_product_batch d) E) as Hb.
    unfold unchanged in Hb.
    unfold bind at 1. rewrite E. cbv zeta. unfold after_one.
    destruct (created (http w (http_count w))) as [o|]; [destruct (obj_truthy o) eqn:Eo|].
    + unfold bind at 1. unfold bind at 1. unfold modify at 1.
      unfold bind at 1. unfold modify at 1.
      match goal with
      | |- context [_create_digital_files d (o_id o) ?w2] =>
        pose proof (create_digital_files_is_ok d (o_id o) w2) as Hok;
        pose proof (create_digital_files_batch d (o_id o) w2) as Hb3;
        pose proof (create_digital_files_http d (o_id o) w2) as Hh3;
        pose proof (create_digital_files_http_count d (o_id o) w2) as Hc3;
        destruct (_create_digital_files d (o_id o) w2) as [[[]|e] w3]
      end; unfold unchanged in *; simpl in *; rewrite <- Hok.
      * unfold sleep, modify. eexists. split; [reflexivity|]. simpl.
        rewrite Hh3, Hc3, Hb3, Hh, Hc, Hb. split; [done|]. split; [lia|done].
      * unfold bind, print, modify. eexists. split; [reflexivity|]. simpl.
        rewrite Hh3, Hc3, Hb3, Hh, Hc, Hb. split; [done|]. split; [lia|done].
    + unfold bind, modify, sleep. eexists. split; [reflexivity|]. simpl.
      rewrite Hh, Hc, Hb. split; [done|]. split; [lia|done].
    + unfold bind, modify, sleep. eexists. split; [reflexivity|]. simpl.
      rewrite Hh, Hc, Hb. split; [done|]. split; [lia|done].
Qed.

Lemma for_each_upload_run files w :
  ∃ w', for_each files upload_one w = (Ok tt, w') ∧
        http w' = http w ∧
        batch w' = tally (http w) files (http_count w) (batch w).
Proof.
  revert w. induction files as [|[name f] files IH]; intros w.
  - exists w. done.
  - destruct (upload_one_run name f w) as (w1 & E1 & Hh & Hc & Hb).
    destruct (IH w1) as (w2 & E2 & Hh2 & Hb2).
    exists w2. cbn [for_each]. rewrite (bind_run _ _ _ _ _ E1).
    split; [exact E2|]. split; [congruence|].
    rewrite Hb2, Hh, Hc, Hb. done.
Qed.

Lemma count_cons o o' os :
  count o (o' :: os) = (if decide (o' = o) then 1 else 0) + count o os.
Proof.
  unfold count. rewrite filter_cons. destruct (decide (o' = o)); simpl; lia.
Qed.

Lemma tally_counts http files n b :
  let os := outcomes http files n in
  let r := tally http files n b in
  success r = success b + count Listed os + count ListedUnrendered os ∧
  failed r = failed b + count Skipped os + count Rejected os + count ListedUnrendered os ∧
  Z.of_nat (length (products r))
    = Z.of_nat (length (products b)) + Z.of_nat (length files) - count Skipped os.
Proof.
  revert n b. induction files as [|[name f] files IH]; intros n b.
  - cbn. unfold count. simpl. lia.
  - cbn [tally outcomes snd]. cbv zeta.
    destruct (IH (n + requests_of f)%nat (after_one (http n) f b)) as (Hs & Hf & Hp).
    rewrite Hs, Hf, Hp. rewrite !count_cons. clear.
    unfold outcome_of, after_one, creation_ok, count_failure.
    destruct f as [e|d]; simpl.
    + repeat case_decide; try congruence. simpl. lia.
    + destruct (created (http n)) as [o|]; [destruct (obj_truthy o)|];
        [destruct (renderable d)|..]; simpl;
        repeat case_decide; try congruence; rewrite ?length_app; simpl; lia.
Qed.

Lemma outcomes_length http files n : length (outcomes http files n) = length files.
Proof. revert n. induction files as [|f files IH]; intros n; simpl; [done|]. by rewrite IH. Qed.

Lemma upload_run dir w :
  match dirs w !! dir with
  | None =>
    upload_products_from_directory dir w
    = (Ok no_results, set_console (console w ++ [PrintDirNotFound dir]) w)
  | Some entries =>
    ∃ w', upload_products_from_directory dir w
          = (Ok (tally (http w) (glob_json entries) (http_count w) no_results), w')
  end.
Proof.
  unfold upload_products_from_directory.
  rewrite (bind_run _ _ w (dirs w !! dir) w) by reflexivity.
  destruct (dirs w !! dir) as [entries|]; [|reflexivity].
  cbv zeta.
  erewrite bind_run by reflexivity.
  erewrite bind_run by reflexivity.
  match goal with
  | |- context [bind (for_each _ _) _ ?w0] =>
    destruct (for_each_upload_run (glob_json entries) w0) as (w1 & E & Hh & Hb)
  end.
  rewrite (bind_run _ _ _ _ _ E). simpl in Hh, Hb.
  unfold bind, gets, print, modify, ret. eexists. rewrite Hb. reflexivity.
Qed.



(** C2 (as amended). A batch upload over a directory with [K] documents,
    of which [U] cannot be read and [F] fail listing creation, and in
    which no rendering raises after a successful creation, returns
    [success = K - U - F] and [failed = U + F], and its result list has
    [K - U] entries: one per readable document. When every document can
    be read this is [success = K - F], [failed = F] and [K] entries. *)
Theorem batch_upload_tallies (dir : string) (entries : list (string * stored_file))
    (w : world) :
  dirs w !! dir = Some entries →
  let os := outcomes (http w) (glob_json entries) (http_count w) in
  let K := Z.of_nat (length (glob_json entries)) in
  let U := count Skipped os in
  let F := count Rejected os in
  count ListedUnrendered os = 0 →
  ∃ r, (upload_products_from_directory dir w).1 = Ok r ∧
       success r = K - U - F ∧
       failed r = U + F ∧
       Z.of_nat (length (products r)) = K - U.
Proof.
  intros Hdir os K U F HR.
  pose proof (upload_run dir w) as Hrun. rewrite Hdir in Hrun.
  destruct Hrun as (w' & E). rewrite E. eexists. split; [reflexivity|].
  destruct (tally_counts (http w) (glob_json entries) (http_count w) no_results)
    as (Hs & Hf & Hp).
  fold os in Hs, Hf, Hp. rewrite Hs, Hf, Hp, HR. simpl.
  assert (K = count Skipped os + count Rejected os + count Listed os
              + count ListedUnrendered os) as HK.
  { unfold K. rewrite <- (outcomes_length (http w) _ (http_count w)). fold os.
    clear. induction os as [|o os IH]; [done|].
    rewrite !count_cons, length_cons, Nat2Z.inj_succ, IH.
    destruct o; repeat case_decide; try congruence; lia. }
  fold K. unfold U, F. lia.
Qed.

Lemma batch_upload_tallies_witness :
  let w := initial_world mixed_marketplace fixed_clock idle_generator
             (store [("a.json", Parsed scenario_ebook);
                     ("b.json", Unreadable JSONDecodeError);
                     ("c.json", Parsed empty_document);
                     ("notes.txt", Unreadable OSError)]) in
  ∃ r, (upload_products_from_directory "generated_products" w).1 = Ok r ∧
       success r = 3 - 1 - 1 ∧ failed r = 1 + 1 ∧
       Z.of_nat (length (products r)) = 3 - 1.
Proof.
  exact (batch_upload_tallies "generated_products" _
           (initial_world mixed_marketplace fixed_clock idle_generator
              (store [("a.json", Parsed scenario_ebook);
                      ("b.json", Unreadable JSONDecodeError);
                      ("c.json", Parsed empty_document);
                      ("notes.txt", Unreadable OSError)]))
           eq_refl eq_refl).
Defined.

(** C2, the counterexample. One document whose creation succeeds
    ([F = 0]) and whose second chapter has no content: the batch returns
    [success = 1] and [failed = 1]. One document that cannot be read: the
    result list has no entry. *)
Lemma batch_upload_tallies_counterexample :
  let w := initial_world creating_marketplace fixed_clock idle_generator
             (store [("broken.json", Parsed broken_ebook)]) in
  let w2 := initial_world creating_marketplace fixed_clock idle_generator
              (store [("damaged.json", Unreadable JSONDecodeError)]) in
  creation_ok (http w 0%nat) = true ∧
  (upload_products_from_directory "generated_products" w).1
    = Ok {| success := 1; failed := 1;
            products := [{| ur_title := Some "T"; ur_whop_id := Some (Some "p_1");
                            ur_status := "success" |}] |} ∧
  (upload_products_from_directory "generated_products" w2).1
    = Ok {| success := 0; failed := 1; products := [] |}.
Proof. vm_compute. repeat split. Qed.


(** C10. A document whose listing is created and whose file rendering
    ([_create_digital_files]) then raises is counted in [success] (with
    its success entry in the result list) and also in [failed]: the
    tallies are not restored. So there are batches in which
    [success + failed] exceeds the number of documents. *)
Theorem render_failure_counted_twice (name : string) (d : product_data) (w : world)
    (id0 : option string) (w0 : world) (e : exn) :
  creation_ok (http w (http_count w)) = true →
  (_create_digital_files d id0 w0).1 = Raise e →
  (∃ w' o,
      upload_one (name, Parsed d) w = (Ok tt, w') ∧
      created (http w (http_count w)) = Some o ∧
      success (batch w') = success (batch w) + 1 ∧
      failed (batch w') = failed (batch w) + 1 ∧
      products (batch w')
      = products (batch w) ++ [{| ur_title := pd_title d;
                                  ur_whop_id := Some (o_id o);
                                  ur_status := "success" |}]) ∧
  (∃ w1 r,
      dirs w1 !! "generated_products" = Some [("document.json", Parsed d)] ∧
      length (glob_json [("document.json", Parsed d)]) = 1%nat ∧
      (upload_products_from_directory "generated_products" w1).1 = Ok r ∧
      success r + failed r = 2).
Proof.
  intros Hok Hraise.
  assert (renderable d = false) as Hr.
  { rewrite <- (create_digital_files_is_ok d id0 w0). by rewrite Hraise. }
  split.
  - destruct (upload_one_run name (Parsed d) w) as (w' & E & _ & _ & Hb).
    unfold creation_ok in Hok. unfold after_one in Hb.
    destruct (created (http w (http_count w))) as [o|]; [|done].
    rewrite Hok, Hr in Hb. exists w', o. rewrite Hb. done.
  - set (w1 := initial_world creating_marketplace fixed_clock idle_generator
                 (store [("document.json", Parsed d)])).
    pose proof (upload_run "generated_products" w1) as Hrun.
    change (dirs w1 !! "generated_products")
      with (Some [("document.json", Parsed d)]) in Hrun.
    destruct Hrun as (w' & E). exists w1. eexists. split; [reflexivity|].
    split; [reflexivity|]. rewrite E. split; [reflexivity|].
    destruct (tally_counts (http w1) (glob_json [("document.json", Parsed d)])
                (http_count w1) no_results) as (Hs & Hf & _).
    rewrite Hs, Hf. clear Hs Hf E.
    change (glob_json [("document.json", Parsed d)]) with [("document.json", Parsed d)].
    cbn [outcomes outcome_of snd].
    change (creation_ok (http w1 (http_count w1))) with true. rewrite Hr.
    rewrite !count_cons. unfold count. simpl. lia.
Qed.

Lemma render_failure_counted_twice_witness :
  let w := initial_world creating_marketplace fixed_clock idle_generator
             (store [("broken.json", Parsed broken_ebook)]) in
  creation_ok (http w (http_count w)) = true ∧
  (_create_digital_files broken_ebook None w).1 = Raise (KeyError "content") ∧
  ∃ w' o,
    upload_one ("broken.json", Parsed broken_ebook) w = (Ok tt, w') ∧
    created (http w (http_count w)) = Some o ∧
    success (batch w') = success (batch w) + 1 ∧
    failed (batch w') = failed (batch w) + 1 ∧
    products (batch w')
    = products (batch w) ++ [{| ur_title := pd_title broken_ebook;
                                ur_whop_id := Some (o_id o);
                                ur_status := "success" |}].
Proof.
  split; [reflexivity|]. split; [reflexivity|].
  exact (proj1 (render_failure_counted_twice "broken.json" broken_ebook
                  (initial_world creating_marketplace fixed_clock idle_generator
                     (store [("broken.json", Parsed broken_ebook)]))
                  None
                  (initial_world creating_marketplace fixed_clock idle_generator
                     (store [("broken.json", Parsed broken_ebook)]))
                  (KeyError "content") eq_refl eq_refl)).
Defined.

End BatchUploaderFacts.

(* ===================================================================== *)
(** * The launcher                                                         *)
(* ===================================================================== *)

Section AutoLauncherFacts.
Import WhopIntegration BatchUploader AutoLauncher.











Lemma report_log : respects (grows automation_log) _generate_daily_report.
Proof.
  unfold _generate_daily_report, analytics_object. unfold_client. frame.
Qed.








(** A cycle with every stage enabled, a generator that always raises, a
    marketplace that refuses every request and no products directory. *)
Example cycle_with_raising_generator :
  automation_log
    (run_daily_automation all_stages
       (initial_world failing_marketplace fixed_clock raising_generator ∅)).2
  = [(INFO, MsgStartingCycle)] ++ generation_failures GeneratorError
    ++ [(INFO, MsgGeneratedCount 0); (INFO, MsgUploadResults 0 0);
        (INFO, MsgStartingPriceOptimization); (INFO, MsgGeneratingReport);
        (INFO, MsgReportSaved 0); (INFO, MsgCycleCompleted)].
Proof. vm_compute. reflexivity. Qed.

End AutoLauncherFacts.

(* ===================================================================== *)
(** * The product store                                                    *)
(* ===================================================================== *)

Section ProductStoreFacts.
Import WhopIntegration BatchUploader AIProductGenerator.







(** The package that [generate_ebook] assembles has the type tag [ebook]
    and chapters that all have a title and a content: its files can be
    rendered. *)
Lemma ebook_package_renderable title subtitle sections word_count tags description d :
  ebook_package title subtitle sections word_count tags description = Ok d →
  pd_type d = Some "ebook" ∧ pd_title d = Some title ∧
  pd_chapters d = Some (chapter_of <$> sections) ∧
  renderable d = true.
Proof.
  unfold ebook_package. destruct (_calculate_price _ _) as [price|e]; [|done].
  intros [= <-]. repeat split. unfold renderable. cbn. clear.
  induction sections as [|tc sections IH]; [done|]. exact IH.
Qed.

End ProductStoreFacts.

(* ===================================================================== *)
(** * The pricing rule                                                     *)
(* ===================================================================== *)

Section PricingFacts.
Import PyFloat WhopIntegration AutoLauncher.

Lemma bind_raise {A B} (c : M A) (k : A → M B) w e w' :
  c w = (Raise e, w') → bind c k w = (Raise e, w').
Proof. intros E. unfold bind. by rewrite E. Qed.

Lemma get_product_analytics_run id o w :
  analytics_of w = Some o →
  ∃ w', get_product_analytics id w = (Ok (Some (JObject o)), w') ∧
        obj_truthy o = true ∧
        sent w' = sent w ++ [GetAnalytics id].
Proof.
  unfold analytics_of, get_product_analytics.
  unfold bind, try_except, ret, raise, print, modify, http_request, response_json.
  destruct (http w (http_count w)) as [|r]; [done|].
  destruct (status_code r =? 200); [|done].
  destruct (body r) as [[o'|]|]; try done.
  destruct (obj_truthy o') eqn:Ht; [|done].
  intros [= ->]. eexists. split; [reflexivity|]. split; [done|]. done.
Qed.

Lemma int_truediv_100 np :
  0 ≤ np < 2 ^ 52 → ∃ x, int_truediv np 100 = Ok x.
Proof.
  intros H. destruct (Z.eq_dec np 0) as [->|Hnz]; [by eexists|].
  destruct (truediv_gt_0_1 np 100) as (x & E & _); [lia|done|]. by exists x.
Qed.

Lemma update_product_pricing_sent id np w :
  0 ≤ np < 2 ^ 52 →
  ∃ b w', update_product_pricing id np w = (Ok b, w') ∧
          sent w' = sent w ++ [PatchPrice id np].
Proof.
  intros H. destruct (int_truediv_100 np H) as [x E].
  unfold update_product_pricing, _log_action.
  unfold bind, try_except, ret, raise, lift, print, modify, http_request, now,
    append_line.
  rewrite E. simpl.
  destruct (http w (http_count w)) as [|resp]; simpl; [by eexists _, _|].
  destruct (status_code resp =? 200); simpl; by eexists _, _.
Qed.

(** The tail of both branches that change the price. *)
Lemma update_and_log id np (title : option string) (msg : string → log_msg) w :
  0 ≤ np < 2 ^ 52 →
  let c := (id <- getitem "id" (Some id) ;;
            update_product_pricing id np ;;
            title <- getitem "title" title ;;
            logger INFO (msg title))%py in
  sent (c w).2 = sent w ++ [PatchPrice id np] ∧
  (∀ t, title = Some t → (c w).1 = Ok tt).
Proof.
  intros Hnp c. subst c. cbn [getitem].
  erewrite bind_run by reflexivity.
  destruct (update_product_pricing_sent id np w Hnp) as (b & w' & E & Hs).
  erewrite bind_run by exact E.
  destruct title as [t|]; cbn [getitem].
  - erewrite bind_run by reflexivity. split; [done|]. done.
  - erewrite bind_raise by reflexivity. split; [done|]. done.
Qed.

Lemma then_sleep (c : M unit) n w :
  sent (bind c (λ _, sleep n) w).2 = sent (c w).2 ∧
  ((c w).1 = Ok tt → (bind c (λ _, sleep n) w).1 = Ok tt).
Proof. unfold bind. by destruct (c w) as [[[]|e] w']. Qed.

Lemma int_mul_to_int p y n w {A} (k : Z → M A) :
  rbind (int_mul p y) to_int = Ok n →
  (x <- lift (int_mul p y) ;; new_price <- lift (to_int x) ;; k new_price)%py w = k n w.
Proof.
  intros H. destruct (int_mul p y) as [x|e]; cbn [rbind] in H; [|done].
  erewrite bind_run by reflexivity. rewrite H. by erewrite bind_run by reflexivity.
Qed.

(** C1 (as amended). For a listing the optimizer considers (made by the
    generator, with an id, and with non-empty analytics reported by the
    marketplace), a current price [0 <= p < 2^49] and integer [views] and
    [purchases] below [2^52], the optimizer asks for the analytics and then
    sends exactly the price update of the documented rule: to
    [floor(p * 0.8)] if [views > 100] and [purchases < 5]; otherwise to
    [floor(p * 1.2)] if [views > 50], [purchases > 10] and
    [purchases / views > 0.10]; otherwise none.  It returns normally when
    the listing has a title. *)
Theorem price_rule_within_range (product : listing) (id : string) (o : jobject)
    (w : world) :
  is_auto_generated product = true →
  l_id product = Some id →
  analytics_of w = Some o →
  0 ≤ default 0 (l_price product) < 2 ^ 49 →
  default 0 (o_views o) < 2 ^ 52 →
  default 0 (o_purchases o) < 2 ^ 52 →
  sent (optimize_one product w).2 =
    sent w ++ GetAnalytics id ::
      price_updates id
        (documented_price_rule (default 0 (o_views o)) (default 0 (o_purchases o))
           (default 0 (l_price product)))
  ∧ (∀ t, l_title product = Some t → (optimize_one product w).1 = Ok tt).
Proof.
  intros Hauto Hid Ha Hp Hv Hu.
  unfold optimize_one. rewrite Hauto, Hid. cbn [getitem].
  erewrite bind_run by reflexivity.
  destruct (get_product_analytics_run id o w Ha) as (w1 & E1 & Ht & Hs1).
  erewrite bind_run by exact E1.
  cbn [analytics_truthy jvalue_truthy analytics_object as_object]. rewrite Ht.
  match goal with
  | |- context [bind ?c (λ _, sleep 1) w1] =>
    destruct (then_sleep c 1 w1) as [-> Hok];
    enough (sent (c w1).2 =
              sent w1 ++ price_updates id
                (documented_price_rule (default 0 (o_views o))
                   (default 0 (o_purchases o)) (default 0 (l_price product)))
            ∧ (∀ t, l_title product = Some t → (c w1).1 = Ok tt)) as [Hs Hr]
  end.
  { split; [by rewrite Hs, Hs1, <- app_assoc | eauto]. }
  clear Hok. erewrite bind_run by reflexivity. cbv zeta.
  set (views := default 0 (o_views o)) in *.
  set (purchases := default 0 (o_purchases o)) in *.
  set (p := default 0 (l_price product)) in *.
  unfold documented_price_rule.
  destruct ((views >? 100) && (purchases <? 5)) eqn:Elow.
  - rewrite (int_mul_to_int p lit_0_8 (p * 8 / 10)) by (apply int_mul_0_8; lia).
    apply update_and_log.
    assert (p * 8 / 10 ≤ p) by (apply Z.div_le_upper_bound; lia).
    assert (0 ≤ p * 8 / 10) by (apply Z.div_pos; lia).
    change (2 ^ 49) with 562949953421312 in *. change (2 ^ 52) with 4503599627370496. lia.
  - destruct ((views >? 50) && (purchases >? 10)) eqn:Ehigh; cbn [andb].
    + apply andb_true_iff in Ehigh as [Hv50 Hu10].
      destruct (truediv_gt_0_1 purchases views) as (x & E & Hgt); [lia|lia|].
      rewrite E. erewrite bind_run by reflexivity. rewrite Hgt.
      destruct (views <? 10 * purchases).
      * rewrite (int_mul_to_int p lit_1_2 (p * 12 / 10)) by (apply int_mul_1_2; lia).
        apply update_and_log.
        assert (p * 12 / 10 ≤ 2 * p) by (apply Z.div_le_upper_bound; lia).
        assert (0 ≤ p * 12 / 10) by (apply Z.div_pos; lia).
        change (2 ^ 49) with 562949953421312 in *. change (2 ^ 52) with 4503599627370496. lia.
      * cbn [price_updates]. rewrite app_nil_r. done.
    + cbn [price_updates]. rewrite app_nil_r. done.
Qed.

(** A much viewed listing that hardly sells goes from 1000 to 800 cents. *)
Lemma price_rule_within_range_witness :
  let w := initial_world (reporting_marketplace 150 2) fixed_clock idle_generator ∅ in
  0 ≤ 1000 < 2 ^ 49 ∧
  sent (optimize_one (generated_listing 1000) w).2
    = [GetAnalytics "p_1"; PatchPrice "p_1" 800] ∧
  (optimize_one (generated_listing 1000) w).1 = Ok tt.
Proof.
  intros w.
  assert (0 ≤ 1000 < 2 ^ 49) as Hp by (simpl; lia).
  split; [exact Hp|].
  destruct (price_rule_within_range (generated_listing 1000) "p_1" _ w
              eq_refl eq_refl eq_refl Hp eq_refl eq_refl) as [Hs Hr].
  split; [exact Hs | exact (Hr "Guide" eq_refl)].
Defined.

(** A listing that sells well goes from 1000 to 1200 cents, and a quiet
    one keeps its price. *)
Example price_rule_other_scenarios :
  let w v u := initial_world (reporting_marketplace v u) fixed_clock idle_generator ∅ in
  sent (optimize_one (generated_listing 1000) (w 60 15)).2
    = [GetAnalytics "p_1"; PatchPrice "p_1" 1200] ∧
  sent (optimize_one (generated_listing 1000) (w 200 15)).2 = [GetAnalytics "p_1"] ∧
  sent (optimize_one (generated_listing 1000) (w 10 1)).2 = [GetAnalytics "p_1"].
Proof. intros w. split; [|split]; vm_compute; reflexivity. Qed.

(** C1, the counterexample. Beyond that range the optimizer leaves the
    documented rule: at a price of about [2^50.6] cents the rounded product
    is one cent above the floor, and at [2^1024] cents the conversion to a
    float raises and no update is sent. *)
Lemma price_rule_beyond_range :
  let w := initial_world (reporting_marketplace 150 2) fixed_clock idle_generator ∅ in
  sent (optimize_one (generated_listing 1688885497618046) w).2
    = [GetAnalytics "p_1"; PatchPrice "p_1" 1351108398094437] ∧
  price_updates "p_1" (documented_price_rule 150 2 1688885497618046)
    = [PatchPrice "p_1" 1351108398094436] ∧
  optimize_one (generated_listing (2 ^ 1024)) w
    = (Raise OverflowError, (get_product_analytics "p_1" w).2) ∧
  sent (optimize_one (generated_listing (2 ^ 1024)) w).2 = [GetAnalytics "p_1"].
Proof. intros w. split; [|split; [|split]]; vm_compute; reflexivity. Qed.

End PricingFacts.
